(** * Git sync orchestration of the Insomnia UI

    A shallow embedding of the two React components that drive the Git
    synchronisation engine:

    - [GitSyncDropdown]  (the dropdown with pull / push / branch checkout and
      the workspace-metadata cache refresh), and
    - [GitBranchesModal] (the branch manager: merge, delete, checkout,
      remote checkout).

    The components talk to three collaborators whose code lives elsewhere in
    the repository: the VCS engine ([GitVCS]), the local document database
    ([db], [models.workspaceMeta]) and the UI reporting helpers.  The engine
    is kept abstract (a type class, any implementation); the database is a
    small model; every call a component makes to a collaborator is recorded,
    in order, in the list of [Call]s returned by the run. *)

From Stdlib Require Import ZArith Bool.
From stdpp Require Import base strings list gmap.

Local Open Scope string_scope.
Local Open Scope list_scope.

(** ** JavaScript values *)

(** A thrown error object; the components read [err.code] and
    [err.message]. *)
Record JsError := { code : option string; message : string }.

(** The outcome of an awaited call: rejected with an error, or fulfilled. *)
Definition result (A : Type) : Type := JsError + A.

(** [new Error(msg)]: no [code] property. *)
Definition Error (msg : string) : JsError := {| code := None; message := msg |}.

(** [!x] for a [string | null] value: null and the empty string are falsy. *)
Definition falsy (x : option string) : bool :=
  match x with
  | None => true
  | Some s => String.eqb s ""
  end.

(** [isNotNullOrUndefined] of [common/misc]. *)
Definition isNotNullOrUndefined {A : Type} (x : option A) : bool :=
  match x with
  | None => false
  | Some _ => true
  end.

(** JavaScript numbers that hold whole values, as integers.  A number is an
    IEEE double: 53 significant bits.  [roundToDouble z] is the double
    nearest to the integer [z], ties going to the even significand; it is
    [z] itself up to 2^53 in magnitude. *)
Definition roundToDouble (z : Z) : Z :=
  let a := Z.abs z in
  if (a <=? 2 ^ 53)%Z then z
  else
    let e := (Z.log2 a - 52)%Z in          (* low bits that do not fit *)
    let q := Z.shiftr a e in
    let r := Z.land a (Z.ones e) in
    let half := Z.shiftl 1 (e - 1) in
    let q' := if (r <? half)%Z then q
              else if (half <? r)%Z then (q + 1)%Z
              else if Z.even q then q else (q + 1)%Z in
    (Z.sgn z * Z.shiftl q' e)%Z.

(** [a * b] on numbers that hold whole values: the exact product, rounded to
    a double.  (A product of magnitude 2^1024 or more would be [Infinity];
    the theorems on the product carry a bound far below that.) *)
Definition js_mul (a b : Z) : Z := roundToDouble (a * b).

Arguments roundToDouble : simpl never.
Arguments js_mul : simpl never.

(** ** Data model *)

(** [GitLogEntry]: of a commit the components read [commit.author.name] and
    [commit.author.timestamp] only.  The timestamp is a JavaScript number
    holding a whole number of seconds; arithmetic on it is double
    arithmetic ([js_mul]). *)
Record GitAuthor := { name : string; timestamp : Z }.
Record GitCommit := { author : GitAuthor }.
Record GitLogEntry := { commit : GitCommit }.

(** [WorkspaceMeta]: the persisted per-workspace record, with the fields the
    components read or write. *)
Record WorkspaceMeta := {
  parentId : string;
  gitRepositoryId : option string;
  cachedGitRepositoryBranch : option string;
  cachedGitLastAuthor : option string;
  cachedGitLastCommitTime : option Z;
}.

(** The object literal passed to [updateByParentId]: both call sites give all
    three keys, [None] standing for [null]. *)
Record MetaPatch := {
  patchBranch : option string;
  patchAuthor : option string;
  patchCommitTime : option Z;
}.

Definition BufferId := nat.

(** ** The VCS engine interface

    The methods of [GitVCS] the components call ([sync/git/git-vcs] is not
    among the sources, so the engine is a parameter).  An engine is any
    state type [E] with these operations; the asynchronous ones may reject.
    The credential lookup of [sync/git/utils] comes with it. *)
Module GitVCS.
Class t (Credentials E : Type) := {
  isInitialized : E -> bool;
  getBranch : E -> result string * E;
  listBranches : E -> result (list string) * E;
  listRemoteBranches : E -> result (list string) * E;
  log : E -> result (option (list GitLogEntry)) * E;
  checkout : string -> E -> result unit * E;
  merge : string -> E -> result unit * E;
  deleteBranch : string -> E -> result unit * E;
  canPush : Credentials -> E -> result bool * E;
  push : Credentials -> bool -> E -> result unit * E;
  pull : Credentials -> E -> result unit * E;
  fetch : bool -> Z -> Credentials -> E -> result unit * E;
  (* [getOauth2FormatName] of [sync/git/utils]: a pure lookup *)
  getOauth2FormatName : Credentials -> option string;
}.
End GitVCS.

(** An engine that keeps a record of the errors it raises: the same answers
    as the engine it wraps, and every rejection added to a list. *)
Module Logged.
Section Logged.
Context {Credentials E : Type} `{!GitVCS.t Credentials E}.

Definition noting {A : Type} (errs : list JsError) (answer : result A * E)
  : result A * (E * list JsError) :=
  match answer with
  | (inl err, e) => (inl err, (e, errs ++ [err]))
  | (inr a, e) => (inr a, (e, errs))
  end.

Definition vcs : GitVCS.t Credentials (E * list JsError) := {|
  GitVCS.isInitialized s := GitVCS.isInitialized (fst s);
  GitVCS.getBranch s := noting (snd s) (GitVCS.getBranch (fst s));
  GitVCS.listBranches s := noting (snd s) (GitVCS.listBranches (fst s));
  GitVCS.listRemoteBranches s := noting (snd s) (GitVCS.listRemoteBranches (fst s));
  GitVCS.log s := noting (snd s) (GitVCS.log (fst s));
  GitVCS.checkout b s := noting (snd s) (GitVCS.checkout b (fst s));
  GitVCS.merge b s := noting (snd s) (GitVCS.merge b (fst s));
  GitVCS.deleteBranch b s := noting (snd s) (GitVCS.deleteBranch b (fst s));
  GitVCS.canPush creds s := noting (snd s) (GitVCS.canPush creds (fst s));
  GitVCS.push creds force s := noting (snd s) (GitVCS.push creds force (fst s));
  GitVCS.pull creds s := noting (snd s) (GitVCS.pull creds (fst s));
  GitVCS.fetch allBranches depth creds s :=
    noting (snd s) (GitVCS.fetch allBranches depth creds (fst s));
  GitVCS.getOauth2FormatName creds := GitVCS.getOauth2FormatName creds;
|}.

(** The errors the engine has raised, oldest first. *)
Definition raised (s : E * list JsError) : list JsError := snd s.

End Logged.
End Logged.

(** ** The local database *)

(** Modelled from the spec: the local document store ([common/database] and
    [models/workspace-meta] are not among the sources).  [bufferChanges]
    opens a buffer scope and returns its id, [flushChanges] closes the scope
    of the given id; workspace metadata is one record per workspace id. *)
Record Database := {
  bufferChangesId : BufferId;
  openBuffers : list BufferId;
  workspaceMetas : gmap string WorkspaceMeta;
}.

(** Modelled from the spec: the record [getOrCreateByParentId] creates for a
    workspace that has none ([models/workspace-meta] is not among the
    sources); no repository, nothing cached. *)
Definition initWorkspaceMeta (workspaceId : string) : WorkspaceMeta :=
  {| parentId := workspaceId;
     gitRepositoryId := None;
     cachedGitRepositoryBranch := None;
     cachedGitLastAuthor := None;
     cachedGitLastCommitTime := None |}.

(** Modelled from the spec: [updateByParentId] overwrites the fields named in
    the patch and keeps the others. *)
Definition applyPatch (p : MetaPatch) (m : WorkspaceMeta) : WorkspaceMeta :=
  {| parentId := parentId m;
     gitRepositoryId := gitRepositoryId m;
     cachedGitRepositoryBranch := patchBranch p;
     cachedGitLastAuthor := patchAuthor p;
     cachedGitLastCommitTime := patchCommitTime p |}.

(** Modelled from the spec: the metadata record of a workspace, the fresh one
    if none is stored. *)
Definition getMeta (workspaceId : string) (d : Database) : WorkspaceMeta :=
  default (initWorkspaceMeta workspaceId) (workspaceMetas d !! workspaceId).

(** Modelled from the spec: storing the metadata record of a workspace. *)
Definition putMeta (workspaceId : string) (m : WorkspaceMeta) (d : Database) : Database :=
  {| bufferChangesId := bufferChangesId d;
     openBuffers := openBuffers d;
     workspaceMetas := <[workspaceId := m]> (workspaceMetas d) |}.

(** Modelled from the spec: [bufferChanges() -> BufferId] opens a scope under
    a fresh id. *)
Definition openBuffer (d : Database) : BufferId * Database :=
  let id := S (bufferChangesId d) in
  (id, {| bufferChangesId := id;
          openBuffers := id :: openBuffers d;
          workspaceMetas := workspaceMetas d |}).

(** Modelled from the spec: [flushChanges(id)] closes the scope of that id. *)
Definition closeBuffer (id : BufferId) (d : Database) : Database :=
  {| bufferChangesId := bufferChangesId d;
     openBuffers := filter (fun i => i <> id) (openBuffers d);
     workspaceMetas := workspaceMetas d |}.

(** ** Calls to collaborators *)

(** The callbacks the components hand to the UI, as data. *)
Inductive Callback :=
| CallHandlePush (force : bool).   (* [() => this._handlePush(null, true)] *)

(** Options of [showAlert]. *)
Record AlertOptions := {
  title : string;
  alertMessage : string;
  okLabel : option string;
  addCancel : bool;
  onConfirm : option Callback;
}.

(** Properties of a [SegmentEvent.vcsAction] analytics event. *)
Record VcsSegmentEvent := {
  vcsType : string;
  vcsAction : string;
  vcsError : option string;
  providerName : option string;
}.

Definition vcsSegmentEventProperties (type action : string) (error : option string)
  : VcsSegmentEvent :=
  {| vcsType := type; vcsAction := action; vcsError := error; providerName := None |}.

Definition withProviderName (p : VcsSegmentEvent) (provider : option string) : VcsSegmentEvent :=
  {| vcsType := vcsType p; vcsAction := vcsAction p; vcsError := vcsError p;
     providerName := provider |}.

Inductive Call {Credentials : Type} :=
(* engine *)
| vcsGetBranch
| vcsListBranches
| vcsListRemoteBranches
| vcsLog
| vcsCheckout (branch : string)
| vcsMerge (branch : string)
| vcsDeleteBranch (branch : string)
| vcsCanPush (creds : Credentials)
| vcsPush (creds : Credentials) (force : bool)
| vcsPull (creds : Credentials)
| vcsFetch (fetchAllBranches : bool) (depth : Z) (creds : Credentials)
(* database *)
| dbBufferChanges (returned : BufferId)
| dbFlushChanges (id : BufferId) (notify : bool)
| metaGetOrCreateByParentId (workspaceId : string)
| metaUpdateByParentId (workspaceId : string) (patch : MetaPatch)
(* redux *)
| handleInitializeEntities
(* reports and other UI calls *)
| showError (errorTitle : string) (error : JsError)
| showAlert (options : AlertOptions)
| trackSegmentEvent (properties : VcsSegmentEvent)
| dropdownHide
| modalShow
| setTimeoutFocusInput (millis : Z).
Arguments Call : clear implicits.

(** The [vcs.fetch] calls among a list of calls, with their arguments. *)
Definition fetchCall {Credentials : Type} (c : Call Credentials)
  : option (bool * Z * Credentials) :=
  match c with
  | vcsFetch fetchAllBranches depth creds => Some (fetchAllBranches, depth, creds)
  | _ => None
  end.

Definition fetchCalls {Credentials : Type} (cs : list (Call Credentials))
  : list (bool * Z * Credentials) :=
  omap fetchCall cs.

(** ** The monad of a component method

    A method runs against a world (engine, database, component state) and
    yields: how it ended (thrown error or value), the calls it made, and the
    world it left. *)
Section Runtime.
Context {Credentials E : Type} `{!GitVCS.t Credentials E}.
Context {S : Type}.

Record World := {
  engine : E;
  database : Database;
  state : S;
}.

Record Outcome (A : Type) := {
  res : result A;
  calls : list (Call Credentials);
  final : World;
}.
Arguments res {A}.
Arguments calls {A}.
Arguments final {A}.

Definition M (A : Type) : Type := World -> Outcome A.

Definition ret {A} (a : A) : M A :=
  fun w => {| res := inr a; calls := []; final := w |}.

Definition throw {A} (e : JsError) : M A :=
  fun w => {| res := inl e; calls := []; final := w |}.

Definition bind {A B} (m : M A) (k : A -> M B) : M B :=
  fun w =>
    match m w with
    | {| res := inl e; calls := cs; final := w1 |} =>
        {| res := inl e; calls := cs; final := w1 |}
    | {| res := inr a; calls := cs; final := w1 |} =>
        match k a w1 with
        | {| res := r; calls := cs'; final := w2 |} =>
            {| res := r; calls := cs ++ cs'; final := w2 |}
        end
    end.

(** [try { body } catch (err) { handler(err) }] *)
Definition try_catch {A} (body : M A) (handler : JsError -> M A) : M A :=
  fun w =>
    match body w with
    | {| res := inl e; calls := cs; final := w1 |} =>
        match handler e w1 with
        | {| res := r; calls := cs'; final := w2 |} =>
            {| res := r; calls := cs ++ cs'; final := w2 |}
        end
    | {| res := inr a; calls := cs; final := w1 |} =>
        {| res := inr a; calls := cs; final := w1 |}
    end.

(** A call to the engine: the engine state advances, the call is recorded. *)
Definition engineCall {A} (c : Call Credentials) (op : E -> result A * E) : M A :=
  fun w =>
    let '(r, e') := op (engine w) in
    {| res := r; calls := [c];
       final := {| engine := e'; database := database w; state := state w |} |}.

(** A call to the database, which does not reject. *)
Definition dbCall {A} (c : A -> Call Credentials) (op : Database -> A * Database) : M A :=
  fun w =>
    let '(a, d') := op (database w) in
    {| res := inr a; calls := [c a];
       final := {| engine := engine w; database := d'; state := state w |} |}.

(** A call to the UI layer: recorded, no effect on the world. *)
Definition uiCall (c : Call Credentials) : M unit :=
  fun w => {| res := inr tt; calls := [c]; final := w |}.

(** [this.setState(patch)] *)
Definition setState (patch : S -> S) : M unit :=
  fun w =>
    {| res := inr tt; calls := [];
       final := {| engine := engine w; database := database w; state := patch (state w) |} |}.

(** [vcs.isInitialized()]: synchronous and pure. *)
Definition vcs_isInitialized : M bool :=
  fun w => {| res := inr (GitVCS.isInitialized (engine w)); calls := []; final := w |}.

Definition vcs_getBranch : M string := engineCall vcsGetBranch GitVCS.getBranch.
Definition vcs_listBranches : M (list string) := engineCall vcsListBranches GitVCS.listBranches.
Definition vcs_listRemoteBranches : M (list string) :=
  engineCall vcsListRemoteBranches GitVCS.listRemoteBranches.
Definition vcs_log : M (option (list GitLogEntry)) := engineCall vcsLog GitVCS.log.
Definition vcs_checkout (branch : string) : M unit :=
  engineCall (vcsCheckout branch) (GitVCS.checkout branch).
Definition vcs_merge (branch : string) : M unit :=
  engineCall (vcsMerge branch) (GitVCS.merge branch).
Definition vcs_deleteBranch (branch : string) : M unit :=
  engineCall (vcsDeleteBranch branch) (GitVCS.deleteBranch branch).
Definition vcs_canPush (creds : Credentials) : M bool :=
  engineCall (vcsCanPush creds) (GitVCS.canPush creds).
Definition vcs_push (creds : Credentials) (force : bool) : M unit :=
  engineCall (vcsPush creds force) (GitVCS.push creds force).
Definition vcs_pull (creds : Credentials) : M unit :=
  engineCall (vcsPull creds) (GitVCS.pull creds).
Definition vcs_fetch (fetchAllBranches : bool) (depth : Z) (creds : Credentials) : M unit :=
  engineCall (vcsFetch fetchAllBranches depth creds)
             (GitVCS.fetch fetchAllBranches depth creds).

Definition db_bufferChanges : M BufferId := dbCall dbBufferChanges openBuffer.

(** [db.flushChanges(id, notify)]; a call without the second argument is
    [notify = false]. *)
Definition db_flushChanges (id : BufferId) (notify : bool) : M unit :=
  dbCall (fun _ => dbFlushChanges id notify) (fun d => (tt, closeBuffer id d)).

(** [models.workspaceMeta.getOrCreateByParentId(id)] *)
Definition workspaceMeta_getOrCreateByParentId (workspaceId : string) : M WorkspaceMeta :=
  dbCall (fun _ => metaGetOrCreateByParentId workspaceId)
         (fun d => let m := getMeta workspaceId d in (m, putMeta workspaceId m d)).

(** [models.workspaceMeta.updateByParentId(id, patch)] *)
Definition workspaceMeta_updateByParentId (workspaceId : string) (patch : MetaPatch)
  : M WorkspaceMeta :=
  dbCall (fun _ => metaUpdateByParentId workspaceId patch)
         (fun d => let m := applyPatch patch (getMeta workspaceId d) in
                   (m, putMeta workspaceId m d)).
End Runtime.

Arguments World : clear implicits.
Arguments Outcome : clear implicits.
Arguments M : clear implicits.
Arguments res {_ _ _ _}.
Arguments calls {_ _ _ _}.
Arguments final {_ _ _ _}.

Notation "x <- m ;; k" := (bind m (fun x => k))
  (at level 100, m at next level, right associativity, only parsing).
Notation "m ;;; k" := (bind m (fun _ => k))
  (at level 100, right associativity, only parsing).

(** The calls that go to the VCS engine. *)
Definition isEngineCall {Credentials : Type} (c : Call Credentials) : bool :=
  match c with
  | vcsGetBranch | vcsListBranches | vcsListRemoteBranches | vcsLog
  | vcsCheckout _ | vcsMerge _ | vcsDeleteBranch _
  | vcsCanPush _ | vcsPush _ _ | vcsPull _ | vcsFetch _ _ _ => true
  | _ => false
  end.

(** The calls that open or close a buffer of the database. *)
Definition isBufferCall {Credentials : Type} (c : Call Credentials) : bool :=
  match c with
  | dbBufferChanges _ | dbFlushChanges _ _ => true
  | _ => false
  end.

(** The calls that write workspace metadata. *)
Definition isMetaWrite {Credentials : Type} (c : Call Credentials) : bool :=
  match c with
  | metaUpdateByParentId _ _ => true
  | _ => false
  end.

(** [this.state], read inside a method. *)
Definition getState {Credentials E S : Type} : M Credentials E S S :=
  fun w => {| res := inr (state w); calls := []; final := w |}.

(** The ids of the open buffers are ids that [bufferChanges] has handed out. *)
Definition buffersWellFormed (d : Database) : Prop :=
  Forall (fun i => i <= bufferChangesId d)%nat (openBuffers d).

(** ** The sync dropdown ([GitSyncDropdown]) *)
Module GitSyncDropdown.

Record State := {
  initializing : bool;
  loadingPush : bool;
  loadingPull : bool;
  log : list GitLogEntry;
  branch : string;
  branches : list string;
}.

Definition initialState : State :=
  {| initializing := false; loadingPush := false; loadingPull := false;
     log := []; branch := ""; branches := [] |}.

Definition set_loadingPush (b : bool) (s : State) : State :=
  {| initializing := initializing s; loadingPush := b; loadingPull := loadingPull s;
     log := log s; branch := branch s; branches := branches s |}.

Definition set_loadingPull (b : bool) (s : State) : State :=
  {| initializing := initializing s; loadingPush := loadingPush s; loadingPull := b;
     log := log s; branch := branch s; branches := branches s |}.

Definition set_log_branch_branches
  (l : list GitLogEntry) (b : string) (bs : list string) (s : State) : State :=
  {| initializing := initializing s; loadingPush := loadingPush s;
     loadingPull := loadingPull s; log := l; branch := b; branches := bs |}.

Section Methods.
Context {Credentials E : Type} `{!GitVCS.t Credentials E}.

Record GitRepository := { credentials : Credentials }.
Record Workspace := { _id : string }.

(** [this.props]; [props.vcs] is the engine of the world. *)
Record Props := {
  workspace : Workspace;
  gitRepository : option GitRepository;
}.

Local Abbreviation Method := (M Credentials E State).

Definition clearedMeta : MetaPatch :=
  {| patchBranch := None; patchAuthor := None; patchCommitTime := None |}.

(** [_refreshState(otherState?)]; [otherState] is spread first, so it is
    a state change applied before [log], [branch] and [branches] are set. *)
Definition _refreshState (props : Props) (otherState : option (State -> State))
  : Method unit :=
  workspaceMeta <- workspaceMeta_getOrCreateByParentId (_id (workspace props)) ;;
  initialized <- vcs_isInitialized ;;
  (* Clear cached items and return if no state *)
  if negb initialized || falsy (gitRepositoryId workspaceMeta) then
    (* Don't update unnecessarily *)
    let needsUpdate :=
      existsb (fun x : bool => x)
        [ isNotNullOrUndefined (cachedGitRepositoryBranch workspaceMeta);
          isNotNullOrUndefined (cachedGitLastAuthor workspaceMeta);
          isNotNullOrUndefined (cachedGitLastCommitTime workspaceMeta) ] in
    if needsUpdate then
      _ <- workspaceMeta_updateByParentId (_id (workspace props)) clearedMeta ;;
      ret tt
    else ret tt
  else
    branch <- vcs_getBranch ;;
    branches <- vcs_listBranches ;;
    log0 <- vcs_log ;;
    let log := default [] log0 in
    setState (fun s => set_log_branch_branches log branch branches
                         (default (fun s => s) otherState s)) ;;;
    let author := option_map (fun e => author (commit e)) (head log) in
    let cachedGitRepositoryBranch := Some branch in
    let cachedGitLastAuthor := option_map name author in
    (* NOTE: We're converting timestamp to ms here *)
    let cachedGitLastCommitTime := option_map (fun a => js_mul (timestamp a) 1000) author in
    _ <- workspaceMeta_updateByParentId (_id (workspace props))
           {| patchBranch := cachedGitRepositoryBranch;
              patchAuthor := cachedGitLastAuthor;
              patchCommitTime := cachedGitLastCommitTime |} ;;
    ret tt.

Definition _handleOpen (props : Props) : Method unit := _refreshState props None.

Definition _handlePull (props : Props) : Method unit :=
  setState (set_loadingPull true) ;;;
  match gitRepository props with
  | None =>
      (* Should never happen *)
      throw (Error "Tried to pull without configuring git repo")
  | Some gitRepository =>
      bufferId <- db_bufferChanges ;;
      let providerName := GitVCS.getOauth2FormatName (credentials gitRepository) in
      try_catch
        (vcs_pull (credentials gitRepository) ;;;
         uiCall (trackSegmentEvent
                   (withProviderName (vcsSegmentEventProperties "git" "pull" None)
                                     providerName)))
        (fun err =>
           uiCall (showError "Error Pulling Repository" err) ;;;
           uiCall (trackSegmentEvent
                     (vcsSegmentEventProperties "git" "pull" (Some (message err))))) ;;;
      db_flushChanges bufferId false ;;;
      setState (set_loadingPull false)
  end.

Definition pushSkippedAlert : AlertOptions :=
  {| title := "Push Skipped";
     alertMessage := "Everything up-to-date. Nothing was pushed to the remote";
     okLabel := None; addCancel := false; onConfirm := None |}.

Definition pushRejectedAlert : AlertOptions :=
  {| title := "Push Rejected";
     alertMessage := "Do you want to force push?";
     okLabel := Some "Force Push"; addCancel := true;
     onConfirm := Some (CallHandlePush true) |}.

Definition pushAction (force : bool) : string :=
  if force then "force_push" else "push".

Definition isPushRejected (err : JsError) : bool :=
  match code err with
  | Some c => String.eqb c "PushRejectedError"
  | None => false
  end.

Definition _handlePush (props : Props) (force : bool) : Method unit :=
  setState (set_loadingPush true) ;;;
  match gitRepository props with
  | None =>
      (* Should never happen *)
      throw (Error "Tried to push without configuring git repo")
  | Some gitRepository =>
      (* Check if there is anything to push *)
      checked <-
        try_catch
          (canPush <- vcs_canPush (credentials gitRepository) ;; ret (Some canPush))
          (fun err =>
             uiCall (showError "Error Pushing Repository" err) ;;;
             setState (set_loadingPush false) ;;;
             ret None) ;;
      match checked with
      | None => ret tt                       (* the [return] of the catch block *)
      | Some false =>
          (* If nothing to push, display that to the user *)
          uiCall (showAlert pushSkippedAlert) ;;;
          setState (set_loadingPush false)
      | Some true =>
          bufferId <- db_bufferChanges ;;
          let providerName := GitVCS.getOauth2FormatName (credentials gitRepository) in
          try_catch
            (vcs_push (credentials gitRepository) force ;;;
             uiCall (trackSegmentEvent
                       (withProviderName
                          (vcsSegmentEventProperties "git" (pushAction force) None)
                          providerName)))
            (fun err =>
               if isPushRejected err then
                 uiCall dropdownHide ;;;
                 uiCall (showAlert pushRejectedAlert)
               else
                 uiCall (showError "Error Pushing Repository" err) ;;;
                 uiCall (trackSegmentEvent
                           (withProviderName
                              (vcsSegmentEventProperties "git" (pushAction force)
                                                         (Some (message err)))
                              providerName))) ;;;
          db_flushChanges bufferId false ;;;
          setState (set_loadingPush false)
      end
  end.

(** What the UI runs when the user confirms an alert. *)
Definition invoke (props : Props) (cb : Callback) : Method unit :=
  match cb with
  | CallHandlePush force => _handlePush props force
  end.

Definition _handleCheckoutBranch (props : Props) (branch : string) : Method unit :=
  bufferId <- db_bufferChanges ;;
  try_catch
    (vcs_checkout branch)
    (fun err => uiCall (showError "Checkout Error" err)) ;;;
  db_flushChanges bufferId true ;;;
  uiCall handleInitializeEntities ;;;
  _refreshState props None.

(** The entries of the dropdown menu that [render] produces, in order. *)
Inductive MenuEntry :=
| DividerGitSync
| ItemRepositorySettings
| ItemBranches
| DividerBranches
| ItemBranch (name : string) (isCurrentBranch : bool)
| DividerCurrentBranch (name : string)
| ItemCommit
| ItemPush (spinning : bool)
| ItemPull (spinning : bool)
| ItemHistory (count : nat) (disabled : bool).

Definition renderBranch (st : State) (b : string) : MenuEntry :=
  ItemBranch b (String.eqb b (branch st)).

(** [render()], as a function of [vcs.isInitialized()] and [this.state]. *)
Definition render (initialized : bool) (st : State) : list MenuEntry :=
  [DividerGitSync; ItemRepositorySettings]
  ++ (if initialized then [ItemBranches] else [])
  ++ (if initialized then
        [DividerBranches]
        ++ map (renderBranch st) (branches st)
        ++ [DividerCurrentBranch (branch st); ItemCommit]
        ++ (if (0 <? length (log st))%nat then [ItemPush (loadingPush st)] else [])
        ++ [ItemPull (loadingPull st);
            ItemHistory (length (log st)) (Nat.eqb (length (log st)) 0)]
      else []).

(** The push control is offered when [render] produces the Push item. *)
Definition isPush (e : MenuEntry) : bool :=
  match e with ItemPush _ => true | _ => false end.

Definition pushOffered (initialized : bool) (st : State) : bool :=
  existsb isPush (render initialized st).

End Methods.
End GitSyncDropdown.

(** ** The branch manager ([GitBranchesModalClass]) *)
Module GitBranchesModal.

Record State := {
  error : string;
  branches : list string;
  remoteBranches : list string;
  branch : string;
  newBranchName : string;
}.

Definition initialState : State :=
  {| error := ""; branch := "??"; branches := []; remoteBranches := [];
     newBranchName := "" |}.

Definition set_error (e : string) (s : State) : State :=
  {| error := e; branches := branches s; remoteBranches := remoteBranches s;
     branch := branch s; newBranchName := newBranchName s |}.

Definition set_newBranchName (n : string) (s : State) : State :=
  {| error := error s; branches := branches s; remoteBranches := remoteBranches s;
     branch := branch s; newBranchName := n |}.

Definition set_branch_branches_remoteBranches
  (b : string) (bs rbs : list string) (s : State) : State :=
  {| error := error s; branches := bs; remoteBranches := rbs;
     branch := b; newBranchName := newBranchName s |}.

Section Methods.
Context {Credentials E : Type} `{!GitVCS.t Credentials E}.

Record GitRepository := { credentials : Credentials }.

(** [this.props]; [props.vcs] is the engine of the world. *)
Record Props := { gitRepository : GitRepository }.

Local Abbreviation Method := (M Credentials E State).

(** [_refreshState(newState?)]; [newState] is spread last, so it is a state
    change applied after [branch], [branches] and [remoteBranches] are set. *)
Definition _refreshState (newState : option (State -> State)) : Method unit :=
  branch <- vcs_getBranch ;;
  branches <- vcs_listBranches ;;
  remoteBranches <- vcs_listRemoteBranches ;;
  setState (fun s => default (fun s => s) newState
                       (set_branch_branches_remoteBranches branch branches remoteBranches s)).

(** [show(options)]; the [onHide] option is kept by the caller. *)
Definition show (props : Props) : Method unit :=
  _refreshState (Some (set_newBranchName "")) ;;;
  uiCall modalShow ;;;
  (* Focus input when modal shows *)
  uiCall (setTimeoutFocusInput 100) ;;;
  (* Do a fetch of remotes and refresh again. NOTE: we're doing this
     last because it's super slow *)
  vcs_fetch false 1 (credentials (gitRepository props)) ;;;
  _refreshState None.

Definition _errorHandler (cb : Method unit) : Method unit :=
  try_catch cb (fun err => setState (set_error (message err))).

Definition _handleCheckout (props : Props) (branch : string) : Method unit :=
  _errorHandler (
    bufferId <- db_bufferChanges ;;
    let providerName := GitVCS.getOauth2FormatName (credentials (gitRepository props)) in
    vcs_checkout branch ;;;
    uiCall (trackSegmentEvent
              (withProviderName (vcsSegmentEventProperties "git" "checkout_branch" None)
                                providerName)) ;;;
    db_flushChanges bufferId true ;;;
    uiCall handleInitializeEntities ;;;
    _refreshState None).

Definition _handleMerge (props : Props) (branch : string) : Method unit :=
  _errorHandler (
    let providerName := GitVCS.getOauth2FormatName (credentials (gitRepository props)) in
    vcs_merge branch ;;;
    (* Apparently merge doesn't update the working dir so need to checkout too *)
    _handleCheckout props branch ;;;
    uiCall (trackSegmentEvent
              (withProviderName (vcsSegmentEventProperties "git" "merge_branch" None)
                                providerName))).

Definition _handleDelete (props : Props) (branch : string) : Method unit :=
  _errorHandler (
    let providerName := GitVCS.getOauth2FormatName (credentials (gitRepository props)) in
    vcs_deleteBranch branch ;;;
    uiCall (trackSegmentEvent
              (withProviderName (vcsSegmentEventProperties "git" "delete_branch" None)
                                providerName)) ;;;
    _refreshState None).

Definition _handleRemoteCheckout (props : Props) (branch : string) : Method unit :=
  _errorHandler (
    (* First fetch more history to make sure we have lots *)
    vcs_fetch true 20 (credentials (gitRepository props)) ;;;
    _handleCheckout props branch).

(** The buttons [render] attaches to a row, by the method they invoke. *)
Inductive Button :=
| ButtonMerge (name : string)            (* [() => this._handleMerge(name)] *)
| ButtonDelete (name : string)           (* [() => this._handleDelete(name)] *)
| ButtonCheckout (name : string)         (* [() => this._handleCheckout(name)] *)
| ButtonRemoteCheckout (name : string).  (* [() => this._handleRemoteCheckout(name)] *)

Record Row := { rowName : string; isCurrent : bool; buttons : list Button }.

(** [branches.includes(b)] *)
Definition includes (bs : list string) (b : string) : bool :=
  existsb (String.eqb b) bs.

Definition remoteOnlyBranches (st : State) : list string :=
  List.filter (fun b => negb (includes (branches st) b)) (remoteBranches st).

Definition localRow (st : State) (name : string) : Row :=
  {| rowName := name;
     isCurrent := String.eqb name (branch st);
     buttons := if negb (String.eqb name (branch st))
                then [ButtonMerge name; ButtonDelete name; ButtonCheckout name]
                else [] |}.

Definition remoteRow (name : string) : Row :=
  {| rowName := name; isCurrent := false; buttons := [ButtonRemoteCheckout name] |}.

(** [render()]: the table of local branches, and the table of remote
    branches, which is present only when it has a row. *)
Record View := {
  errorNotice : option string;
  localTable : list Row;
  remoteTable : option (list Row);
  footerBranch : string;
}.

Definition render (st : State) : View :=
  let remoteOnlyBranches := remoteOnlyBranches st in
  {| errorNotice := if String.eqb (error st) "" then None else Some (error st);
     localTable := map (localRow st) (branches st);
     remoteTable := if (0 <? length remoteOnlyBranches)%nat
                    then Some (map remoteRow remoteOnlyBranches)
                    else None;
     footerBranch := branch st |}.

(** The branch names [render] offers a remote checkout for, in order. *)
Definition remoteCheckoutTarget (b : Button) : option string :=
  match b with
  | ButtonRemoteCheckout name => Some name
  | _ => None
  end.

Definition rowsOf (v : View) : list Row :=
  localTable v ++ default [] (remoteTable v).

Definition remoteCheckoutOffered (v : View) : list string :=
  omap remoteCheckoutTarget (concat (map buttons (rowsOf v))).

(** The branch names [render] lists as local branches, in order. *)
Definition localOffered (v : View) : list string := map rowName (localTable v).

(** The branch a button acts on. *)
Definition buttonTarget (b : Button) : string :=
  match b with
  | ButtonMerge n | ButtonDelete n | ButtonCheckout n | ButtonRemoteCheckout n => n
  end.

(** [_handleCreate(event)]; the form event is only told not to submit. *)
Definition _handleCreate (props : Props) : Method unit :=
  _errorHandler (
    st <- getState ;;
    let newBranchName := newBranchName st in
    let providerName := GitVCS.getOauth2FormatName (credentials (gitRepository props)) in
    vcs_checkout newBranchName ;;;
    uiCall (trackSegmentEvent
              (withProviderName (vcsSegmentEventProperties "git" "create_branch" None)
                                providerName)) ;;;
    _refreshState (Some (set_newBranchName ""))).

Definition _handleClearError : Method unit :=
  setState (set_error "").

(** [_updateNewBranchName(event)], with [event.currentTarget.value]. *)
Definition _updateNewBranchName (value : string) : Method unit :=
  setState (set_newBranchName value).

End Methods.
End GitBranchesModal.

(** ** The code prompt ([CodePromptModal]) *)
Module CodePromptModal.

(** The values an [any]-typed option can hold, as far as [typeof] tells them
    apart. *)
Inductive JsValue :=
| JsUndefined
| JsNull
| JsBoolean (b : bool)
| JsNumber (n : Z)
| JsString (s : string)
| JsFunction
| JsObject.

Definition typeof (v : JsValue) : string :=
  match v with
  | JsUndefined => "undefined"
  | JsNull => "object"
  | JsBoolean _ => "boolean"
  | JsNumber _ => "number"
  | JsString _ => "string"
  | JsFunction => "function"
  | JsObject => "object"
  end.

(** [a || b] on strings: the empty string is falsy. *)
Definition orElse (a b : string) : string :=
  if String.eqb a "" then b else a.

(** The [MODES] table, in the order of its keys. *)
Definition MODES : list (string * string) :=
  [ ("text/plain", "Plain Text");
    ("application/json", "JSON");
    ("application/xml", "XML");
    ("application/edn", "EDN");
    ("text/x-markdown", "Markdown");
    ("text/html", "HTML") ].

(** [Object.keys(MODES)] *)
Definition MODES_keys : list string := map fst MODES.

(** [MODES[mode]], for the table's own keys; [None] is [undefined]. *)
Definition MODES_get (mode : string) : option string :=
  option_map snd (List.find (fun kv => String.eqb (fst kv) mode) MODES).

Record State := {
  title : string;
  defaultValue : string;
  submitName : string;
  placeholder : string;
  hint : string;
  mode : string;
  hideMode : bool;
  enableRender : bool;
  showCopyButton : bool;
}.

Definition initialState : State :=
  {| title := "Not Set"; defaultValue := ""; submitName := "Not Set";
     placeholder := ""; hint := ""; mode := "text/plain";
     hideMode := false; enableRender := false; showCopyButton := false |}.

(** A function handed to the modal by its caller; [Noop] is [() => {}]. *)
Inductive Handler :=
| Noop
| External (name : string).

(** The component: its state and the two callbacks it keeps; a callback that
    the caller left out is [None] ([undefined]). *)
Record Component := {
  state : State;
  _onChange : option Handler;
  _onModeChange : option Handler;
}.

Definition initialComponent : Component :=
  {| state := initialState; _onChange := Some Noop; _onModeChange := Some Noop |}.

(** The argument of [show]. *)
Record Options := {
  optTitle : string;
  optDefaultValue : string;
  optSubmitName : string;
  optPlaceholder : string;
  optHint : string;
  optMode : JsValue;
  optHideMode : bool;
  optEnableRender : bool;
  optOnChange : option Handler;
  optOnModeChange : option Handler;
  optShowCopyButton : bool;
}.

(** What a method does to the outside. *)
Inductive Effect :=
| ModalShow
| ModalHide
| Invoke (h : Handler) (argument : JsValue).

Definition show (options : Options) (c : Component) : Component * list Effect :=
  let realMode :=
    match optMode options with
    | JsString s => s          (* typeof mode === 'string' *)
    | _ => "text/plain"
    end in
  ({| state :=
        {| title := optTitle options;
           defaultValue := optDefaultValue options;
           submitName := optSubmitName options;
           placeholder := optPlaceholder options;
           hint := optHint options;
           enableRender := optEnableRender options;
           hideMode := optHideMode options;
           showCopyButton := optShowCopyButton options;
           mode := orElse realMode (orElse (mode (state c)) "text/plain") |};
      _onChange := optOnChange options;
      _onModeChange := optOnModeChange options |},
   [ModalShow]).

(** [_handleChange(value)]: calling a callback that is [undefined] throws. *)
Definition _handleChange (value : JsValue) (c : Component) : result (list Effect) :=
  match _onChange c with
  | Some h => inr [Invoke h value]
  | None => inl (Error "this._onChange is not a function")
  end.

(** [_handleChangeMode(mode)]: the callback is called only if there is one. *)
Definition _handleChangeMode (newMode : string) (c : Component)
  : Component * list Effect :=
  ({| state :=
        {| title := title (state c);
           defaultValue := defaultValue (state c);
           submitName := submitName (state c);
           placeholder := placeholder (state c);
           hint := hint (state c);
           enableRender := enableRender (state c);
           hideMode := hideMode (state c);
           showCopyButton := showCopyButton (state c);
           mode := newMode |};
      _onChange := _onChange c;
      _onModeChange := _onModeChange c |},
   match _onModeChange c with
   | Some h => [Invoke h (JsString newMode)]
   | None => []
   end).

Inductive Editor :=
| MarkdownEditor (editorMode : string)
| CodeEditor (editorMode : string).

(** The syntax dropdown of the footer: the label on its button and one item
    per key of [MODES]. *)
Record ModeDropdown := {
  buttonLabel : option string;
  items : list (string * option string);
}.

Record View := {
  header : string;
  copyButton : option string;
  nunjucksDisabled : bool;
  editor : Editor;
  modeDropdown : option ModeDropdown;
  hintText : string;
  submitLabel : string;
}.

Definition render (st : State) : View :=
  {| header := title st;
     copyButton := if showCopyButton st then Some (defaultValue st) else None;
     nunjucksDisabled := negb (enableRender st);
     editor := if String.eqb (mode st) "text/x-markdown"
               then MarkdownEditor (mode st)
               else CodeEditor (mode st);
     modeDropdown :=
       if negb (hideMode st)
       then Some {| buttonLabel := MODES_get (mode st);
                    items := map (fun k => (k, MODES_get k)) MODES_keys |}
       else None;
     hintText := if String.eqb (hint st) "" then "" else String.append "* " (hint st);
     submitLabel := orElse (submitName st) "Submit" |}.

End CodePromptModal.

(** ** The WebSocket event log ([EventLogView]) *)
Module EventLogView.

(** [WebSocketEvent], with the fields the view reads; a field that an event
    of some type does not have is not read for that type. *)
Record WebSocketEvent := {
  _id : string;
  type : string;
  direction : string;
  data : string;
  message : string;
}.

Definition getIcon (event : WebSocketEvent) : string :=
  if String.eqb (type event) "message" then
    if String.eqb (direction event) "OUTGOING" then "sent" else "receive"
  else if String.eqb (type event) "open" then "checkmark-circle"
  else if String.eqb (type event) "close" then "disconnected"
  else if String.eqb (type event) "error" then "error"
  else "bug".

Definition getMessage (event : WebSocketEvent) : string :=
  if String.eqb (type event) "message" then data event
  else if String.eqb (type event) "open" then "Connected successfully"
  else if String.eqb (type event) "close" then "Disconnected"
  else if String.eqb (type event) "error" then message event
  else "Unknown event".

End EventLogView.

(** ** A scripted engine

    An engine whose every method gives a fixed answer; used to run the
    components on concrete inputs. *)
Module Scripted.

Record Engine := {
  initialized : bool;
  onGetBranch : result string;
  onListBranches : result (list string);
  onListRemoteBranches : result (list string);
  onLog : result (option (list GitLogEntry));
  onCheckout : string -> result unit;
  onMerge : string -> result unit;
  onDeleteBranch : string -> result unit;
  onCanPush : result bool;
  onPush : bool -> result unit;
  onPull : result unit;
  onFetch : result unit;
}.

#[export] Instance vcs : GitVCS.t string Engine := {|
  GitVCS.isInitialized e := initialized e;
  GitVCS.getBranch e := (onGetBranch e, e);
  GitVCS.listBranches e := (onListBranches e, e);
  GitVCS.listRemoteBranches e := (onListRemoteBranches e, e);
  GitVCS.log e := (onLog e, e);
  GitVCS.checkout b e := (onCheckout e b, e);
  GitVCS.merge b e := (onMerge e b, e);
  GitVCS.deleteBranch b e := (onDeleteBranch e b, e);
  GitVCS.canPush _ e := (onCanPush e, e);
  GitVCS.push _ force e := (onPush e force, e);
  GitVCS.pull _ e := (onPull e, e);
  GitVCS.fetch _ _ _ e := (onFetch e, e);
  GitVCS.getOauth2FormatName _ := Some "github";
|}.

Definition headCommit : GitLogEntry :=
  {| commit := {| author := {| name := "Ada"; timestamp := 1700000000 |} |} |}.

(** A healthy repository on [main] with one commit and a [feature] branch. *)
Definition healthy : Engine :=
  {| initialized := true;
     onGetBranch := inr "main";
     onListBranches := inr ["main"; "feature"];
     onListRemoteBranches := inr ["main"; "hotfix"];
     onLog := inr (Some [headCommit]);
     onCheckout := fun _ => inr tt;
     onMerge := fun _ => inr tt;
     onDeleteBranch := fun _ => inr tt;
     onCanPush := inr true;
     onPush := fun _ => inr tt;
     onPull := inr tt;
     onFetch := inr tt |}.

Definition conflict : JsError :=
  {| code := Some "CheckoutConflictError"; message := "Your local changes would be overwritten" |}.

Definition rejected : JsError :=
  {| code := Some "PushRejectedError"; message := "Push rejected because it was not a simple fast-forward" |}.

(** The same repository, where checking out any branch fails. *)
Definition checkoutFails : Engine :=
  {| initialized := true;
     onGetBranch := inr "main";
     onListBranches := inr ["main"; "feature"];
     onListRemoteBranches := inr ["main"; "hotfix"];
     onLog := inr (Some [headCommit]);
     onCheckout := fun _ => inl conflict;
     onMerge := fun _ => inr tt;
     onDeleteBranch := fun _ => inr tt;
     onCanPush := inr true;
     onPush := fun _ => inr tt;
     onPull := inr tt;
     onFetch := inr tt |}.

(** The same repository after the engine was torn down. *)
Definition uninitialized : Engine :=
  {| initialized := false;
     onGetBranch := inl (Error "git not initialized");
     onListBranches := inl (Error "git not initialized");
     onListRemoteBranches := inl (Error "git not initialized");
     onLog := inl (Error "git not initialized");
     onCheckout := fun _ => inl (Error "git not initialized");
     onMerge := fun _ => inl (Error "git not initialized");
     onDeleteBranch := fun _ => inl (Error "git not initialized");
     onCanPush := inl (Error "git not initialized");
     onPush := fun _ => inl (Error "git not initialized");
     onPull := inl (Error "git not initialized");
     onFetch := inl (Error "git not initialized") |}.

Definition staleMeta : WorkspaceMeta :=
  {| parentId := "wrk_1";
     gitRepositoryId := None;
     cachedGitRepositoryBranch := Some "main";
     cachedGitLastAuthor := Some "Ada";
     cachedGitLastCommitTime := Some 1700000000000%Z |}.

Definition configuredMeta : WorkspaceMeta :=
  {| parentId := "wrk_1";
     gitRepositoryId := Some "git_1";
     cachedGitRepositoryBranch := None;
     cachedGitLastAuthor := None;
     cachedGitLastCommitTime := None |}.

Definition dbWith (m : WorkspaceMeta) : Database :=
  {| bufferChangesId := 0; openBuffers := [];
     workspaceMetas := {[ "wrk_1" := m ]} |}.

Definition dropdownWorld (e : Engine) (m : WorkspaceMeta) : World Engine GitSyncDropdown.State :=
  {| engine := e; database := dbWith m; state := GitSyncDropdown.initialState |}.

Definition modalWorld (e : Engine) : World Engine GitBranchesModal.State :=
  {| engine := e; database := dbWith configuredMeta; state := GitBranchesModal.initialState |}.

Definition dropdownProps : GitSyncDropdown.Props (Credentials := string) :=
  {| GitSyncDropdown.workspace := {| GitSyncDropdown._id := "wrk_1" |};
     GitSyncDropdown.gitRepository := Some {| GitSyncDropdown.credentials := "token" |} |}.

Definition dropdownPropsNoRepository : GitSyncDropdown.Props (Credentials := string) :=
  {| GitSyncDropdown.workspace := {| GitSyncDropdown._id := "wrk_1" |};
     GitSyncDropdown.gitRepository := None |}.

(** A dropdown whose state still holds the log of an earlier refresh. *)
Definition staleState : GitSyncDropdown.State :=
  {| GitSyncDropdown.initializing := false;
     GitSyncDropdown.loadingPush := false;
     GitSyncDropdown.loadingPull := false;
     GitSyncDropdown.log := [headCommit];
     GitSyncDropdown.branch := "main";
     GitSyncDropdown.branches := ["main"; "feature"] |}.

(** The branch manager after a refresh: [main] is local and remote. *)
Definition refreshedModalState : GitBranchesModal.State :=
  {| GitBranchesModal.error := "";
     GitBranchesModal.branches := ["main"; "feature"];
     GitBranchesModal.remoteBranches := ["main"; "hotfix"];
     GitBranchesModal.branch := "main";
     GitBranchesModal.newBranchName := "" |}.

Definition modalProps : GitBranchesModal.Props (Credentials := string) :=
  {| GitBranchesModal.gitRepository := {| GitBranchesModal.credentials := "token" |} |}.

End Scripted.

(** ** More scripted repositories *)
Module Scenarios.
Import Scripted.

(** A repository with no commit yet. *)
Definition emptyRepository : Engine :=
  {| initialized := true;
     onGetBranch := inr "main";
     onListBranches := inr ["main"];
     onListRemoteBranches := inr [];
     onLog := inr (Some []);
     onCheckout := fun _ => inr tt;
     onMerge := fun _ => inr tt;
     onDeleteBranch := fun _ => inr tt;
     onCanPush := inr false;
     onPush := fun _ => inr tt;
     onPull := inr tt;
     onFetch := inr tt |}.

Definition corrupt : JsError :=
  {| code := Some "NotFoundError"; message := "Could not find HEAD" |}.

(** An initialised engine whose repository cannot be read. *)
Definition unreadable : Engine :=
  {| initialized := true;
     onGetBranch := inl corrupt;
     onListBranches := inl corrupt;
     onListRemoteBranches := inl corrupt;
     onLog := inl corrupt;
     onCheckout := fun _ => inl corrupt;
     onMerge := fun _ => inl corrupt;
     onDeleteBranch := fun _ => inl corrupt;
     onCanPush := inl corrupt;
     onPush := fun _ => inl corrupt;
     onPull := inl corrupt;
     onFetch := inl corrupt |}.

(** An initialised engine whose [deleteBranch] rejects with an error that
    has no message. *)
Definition silent : JsError := {| code := None; message := "" |}.

Definition silentRefusal : Engine :=
  {| initialized := true;
     onGetBranch := inr "main";
     onListBranches := inr ["main"; "feature"];
     onListRemoteBranches := inr ["main"; "hotfix"];
     onLog := inr (Some [headCommit]);
     onCheckout := fun _ => inr tt;
     onMerge := fun _ => inr tt;
     onDeleteBranch := fun _ => inl silent;
     onCanPush := inr true;
     onPush := fun _ => inr tt;
     onPull := inr tt;
     onFetch := inr tt |}.



Definition cachedMeta : WorkspaceMeta :=
  {| parentId := "wrk_1";
     gitRepositoryId := Some "git_1";
     cachedGitRepositoryBranch := Some "main";
     cachedGitLastAuthor := Some "Ada";
     cachedGitLastCommitTime := Some 1700000000000%Z |}.

End Scenarios.

(** * Properties *)

(** ** The monad *)

Section RuntimeFacts.
Context {Credentials E : Type} `{!GitVCS.t Credentials E} {S : Type}.


(** A buffer that was flushed is not among the open buffers. *)
Lemma flushed_buffer_is_closed (id : BufferId) (bs : list BufferId) :
  id ∉ filter (fun i => i <> id) bs.
Proof.
  intros Hin. apply list_elem_of_filter in Hin as [Hne _]. by apply Hne.
Qed.

End RuntimeFacts.

(** ** The sync dropdown *)

Section DropdownProperties.
Context {Credentials E : Type} `{!GitVCS.t Credentials E}.
Import GitSyncDropdown.

Local Abbreviation configured ws repo :=
  {| workspace := ws; gitRepository := Some repo |}.

Local Ltac run_method :=
  unfold _handlePull, _handlePush, _handleCheckoutBranch, _refreshState,
    bind, try_catch, ret, throw, setState, uiCall,
    db_bufferChanges, db_flushChanges, dbCall,
    workspaceMeta_getOrCreateByParentId, workspaceMeta_updateByParentId,
    vcs_isInitialized, vcs_getBranch, vcs_listBranches, vcs_log,
    vcs_pull, vcs_push, vcs_canPush, vcs_checkout, engineCall;
  simpl.

(** C3. Pull, with a repository configured: begin a buffer, call
    [vcs.pull(credentials)], report an error if there is one (the action
    itself does not throw), then flush the buffer without notification, on
    the success path and on the error path alike; the buffer opened is
    closed when the action returns. *)
Theorem dropdown_pull_sequence
  (ws : Workspace) (repo : GitRepository) (w : World E State) :
  let creds := credentials repo in
  let id := Datatypes.S (bufferChangesId (database w)) in
  let provider := GitVCS.getOauth2FormatName creds in
  let o := _handlePull (configured ws repo) w in
  res o = inr tt
  ∧ calls o =
      [dbBufferChanges id; vcsPull creds]
      ++ match (GitVCS.pull creds (engine w)).1 with
         | inr _ =>
             [trackSegmentEvent
                (withProviderName (vcsSegmentEventProperties "git" "pull" None) provider)]
         | inl err =>
             [showError "Error Pulling Repository" err;
              trackSegmentEvent
                (vcsSegmentEventProperties "git" "pull" (Some (message err)))]
         end
      ++ [dbFlushChanges id false]
  ∧ id ∉ openBuffers (database (final o)).
Proof.
  run_method.
  destruct (GitVCS.pull (credentials repo) (engine w)) as [[err|[]] e1]; simpl;
    (split; [reflexivity | split; [reflexivity | apply flushed_buffer_is_closed]]).
Qed.

(** C2. Push, with a repository configured: first [vcs.canPush(credentials)];
    if that answers false, an alert says nothing was pushed and the action
    stops, with no buffer opened and no push; if it answers true, a buffer is
    opened, [vcs.push(credentials, force)] is called, a [PushRejectedError]
    raises the alert whose confirmation runs the push action again with
    [force = true], any other error is reported, and in every case the buffer
    is then flushed without notification. *)
Theorem dropdown_push_sequence
  (ws : Workspace) (repo : GitRepository) (force : bool) (w : World E State) :
  let creds := credentials repo in
  let id := Datatypes.S (bufferChangesId (database w)) in
  let provider := GitVCS.getOauth2FormatName creds in
  let o := _handlePush (configured ws repo) force w in
  res o = inr tt
  ∧ match GitVCS.canPush creds (engine w) with
    | (inl err, _) =>
        calls o = [vcsCanPush creds; showError "Error Pushing Repository" err]
        ∧ database (final o) = database w
    | (inr false, _) =>
        calls o = [vcsCanPush creds; showAlert pushSkippedAlert]
        ∧ database (final o) = database w
    | (inr true, e1) =>
        calls o =
          [vcsCanPush creds; dbBufferChanges id; vcsPush creds force]
          ++ match (GitVCS.push creds force e1).1 with
             | inr _ =>
                 [trackSegmentEvent
                    (withProviderName
                       (vcsSegmentEventProperties "git" (pushAction force) None) provider)]
             | inl err =>
                 if isPushRejected err
                 then [dropdownHide; showAlert pushRejectedAlert]
                 else [showError "Error Pushing Repository" err;
                       trackSegmentEvent
                         (withProviderName
                            (vcsSegmentEventProperties "git" (pushAction force)
                               (Some (message err))) provider)]
             end
          ++ [dbFlushChanges id false]
        ∧ id ∉ openBuffers (database (final o))
    end
  ∧ onConfirm pushRejectedAlert = Some (CallHandlePush true)
  ∧ invoke (configured ws repo) (CallHandlePush true)
    = _handlePush (configured ws repo) true.
Proof.
  run_method.
  destruct (GitVCS.canPush (credentials repo) (engine w)) as [[err|[|]] e1]; simpl.
  - repeat split; reflexivity.
  - destruct (GitVCS.push (credentials repo) force e1) as [[err|[]] e2]; simpl.
    + destruct (isPushRejected err); simpl;
        repeat split; try reflexivity; apply flushed_buffer_is_closed.
    + repeat split; try reflexivity; apply flushed_buffer_is_closed.
  - repeat split; reflexivity.
Qed.

(** The dropdown's checkout action: begin a buffer, call
    [vcs.checkout(branch)], report an error if there is one, flush the
    buffer with notification, reinitialise the entities, refresh the state;
    the flush happens whether or not the checkout failed. *)
Lemma dropdown_checkout_sequence
  (props : Props) (b : string) (w : World E State) :
  let id := Datatypes.S (bufferChangesId (database w)) in
  let checked := GitVCS.checkout b (engine w) in
  let w1 := {| engine := checked.2;
               database := closeBuffer id (openBuffer (database w)).2;
               state := state w |} in
  let o := _handleCheckoutBranch props b w in
  calls o =
    [dbBufferChanges id; vcsCheckout b]
    ++ match checked.1 with
       | inr _ => []
       | inl err => [showError "Checkout Error" err]
       end
    ++ [dbFlushChanges id true; handleInitializeEntities]
    ++ calls (_refreshState props None w1)
  ∧ res o = res (_refreshState props None w1)
  ∧ final o = final (_refreshState props None w1)
  ∧ id ∉ openBuffers (database w1).
Proof.
  unfold _handleCheckoutBranch, bind, try_catch, uiCall, db_bufferChanges,
    db_flushChanges, dbCall, vcs_checkout, engineCall; simpl.
  destruct (GitVCS.checkout b (engine w)) as [[err|[]] e1]; simpl;
    destruct (_refreshState props None _) as [r cs wf]; simpl;
    repeat split; try reflexivity; apply flushed_buffer_is_closed.
Qed.

(** C4. A refresh while the repository is unconfigured (engine not
    initialised, or no repository id on the workspace metadata) leaves the
    three cached fields null; it writes (one [updateByParentId] with the three
    fields null) when one of the stored fields is non-null, and when all
    three are null already it issues no write and the stored record, indeed
    the whole database, is as it was. *)
Theorem refresh_unconfigured_clears_cache
  (props : Props) (otherState : option (State → State)) (w : World E State) :
  let wid := _id (workspace props) in
  let stored := getMeta wid (database w) in
  GitVCS.isInitialized (engine w) = false ∨ gitRepositoryId stored = None →
  let o := _refreshState props otherState w in
  let after := getMeta wid (database (final o)) in
  res o = inr tt
  ∧ (cachedGitRepositoryBranch after = None
     ∧ cachedGitLastAuthor after = None
     ∧ cachedGitLastCommitTime after = None)
  ∧ (cachedGitRepositoryBranch stored ≠ None
     ∨ cachedGitLastAuthor stored ≠ None
     ∨ cachedGitLastCommitTime stored ≠ None →
     calls o = [metaGetOrCreateByParentId wid; metaUpdateByParentId wid clearedMeta])
  ∧ (cachedGitRepositoryBranch stored = None
     ∧ cachedGitLastAuthor stored = None
     ∧ cachedGitLastCommitTime stored = None →
     calls o = [metaGetOrCreateByParentId wid]
     ∧ after = stored
     ∧ (workspaceMetas (database w) !! wid = Some stored →
        database (final o) = database w)).
Proof.
  intros wid stored Hun o after.
  assert (Hguard : negb (GitVCS.isInitialized (engine w))
                   || falsy (gitRepositoryId stored) = true).
  { destruct Hun as [-> | ->]; [reflexivity | apply orb_true_r]. }
  subst o after. run_method. fold wid. fold stored. rewrite Hguard.
  destruct (cachedGitRepositoryBranch stored) as [br|] eqn:Hb;
  destruct (cachedGitLastAuthor stored) as [au|] eqn:Ha;
  destruct (cachedGitLastCommitTime stored) as [tm|] eqn:Ht; simpl;
    unfold getMeta; simpl; rewrite ?lookup_insert_eq; simpl;
    (split; [reflexivity|]); (split; [by rewrite ?Hb, ?Ha, ?Ht|]);
    (split; [first [intros _; reflexivity | intros [?|[?|?]]; congruence]|]).
  all: try (intros (? & ? & ?); discriminate).
  intros _. split; [reflexivity|]. split; [reflexivity|].
  intros Hl. destruct (database w) as [n bs ms]; simpl in *.
  unfold putMeta; simpl. f_equal. by apply insert_id.
Qed.


(** C9 (amended). The push control is offered exactly when the engine is
    initialised and the commit log held by the component is not empty: with
    an initialised engine it is suppressed exactly when the log is empty, and
    without one it is never offered. *)
Theorem push_control_offered (initialized : bool) (st : State) :
  pushOffered initialized st = true ↔ initialized = true ∧ log st ≠ [].
Proof.
  unfold pushOffered, render.
  assert (Hb : existsb isPush (map (renderBranch st) (branches st)) = false).
  { induction (branches st) as [|b bs IH]; [reflexivity | exact IH]. }
  destruct initialized; simpl.
  - rewrite existsb_app, Hb; simpl.
    destruct (log st) as [|c l]; simpl; split; try discriminate.
    + intros [_ Hne]. by destruct Hne.
    + by intros _.
    + done.
  - split; [discriminate | intros [? _]; discriminate].
Qed.

(** Errors of the engine calls that pull, push and checkout wrap are
    reported, and pull and push do not throw. *)
Lemma dropdown_pull_reports (ws : Workspace) (repo : GitRepository) (w : World E State) :
  let o := _handlePull (configured ws repo) w in
  res o = inr tt
  ∧ ∀ err, (GitVCS.pull (credentials repo) (engine w)).1 = inl err →
           showError "Error Pulling Repository" err ∈ calls o.
Proof.
  run_method.
  destruct (GitVCS.pull (credentials repo) (engine w)) as [[err|[]] e1]; simpl;
    (split; [reflexivity|]); intros err' Heq; [|discriminate].
  injection Heq as <-. set_solver.
Qed.

Lemma dropdown_push_reports
  (ws : Workspace) (repo : GitRepository) (force : bool) (w : World E State) :
  let o := _handlePush (configured ws repo) force w in
  res o = inr tt
  ∧ (∀ err, (GitVCS.canPush (credentials repo) (engine w)).1 = inl err →
            showError "Error Pushing Repository" err ∈ calls o)
  ∧ (∀ e1 err, GitVCS.canPush (credentials repo) (engine w) = (inr true, e1) →
               (GitVCS.push (credentials repo) force e1).1 = inl err →
               (if isPushRejected err then showAlert pushRejectedAlert
                else showError "Error Pushing Repository" err) ∈ calls o).
Proof.
  run_method.
  destruct (GitVCS.canPush (credentials repo) (engine w)) as [[err|[|]] e1]; simpl.
  - split; [reflexivity|]. split.
    + intros err' Heq. injection Heq as <-. set_solver.
    + intros e1' err' Heq. discriminate.
  - destruct (GitVCS.push (credentials repo) force e1) as [[err|[]] e2] eqn:Hp; simpl.
    + destruct (isPushRejected err) eqn:Hrej; simpl;
        (split; [reflexivity|]); (split; [intros ? ?; discriminate|]);
        intros e1' err' Heq Hpush; injection Heq as <-; rewrite Hp in Hpush;
        injection Hpush as <-; rewrite Hrej; set_solver.
    + split; [reflexivity|]. split; [intros ? ?; discriminate|].
      intros e1' err' Heq Hpush. injection Heq as <-. rewrite Hp in Hpush.
      discriminate.
  - split; [reflexivity|]. split; [intros ? ?; discriminate|].
    intros e1' err' Heq. discriminate.
Qed.

Lemma dropdown_checkout_reports
  (props : Props) (b : string) (w : World E State) (err : JsError) :
  (GitVCS.checkout b (engine w)).1 = inl err →
  showError "Checkout Error" err ∈ calls (_handleCheckoutBranch props b w).
Proof.
  intros Hc. destruct (dropdown_checkout_sequence props b w) as (-> & _).
  rewrite Hc. set_solver.
Qed.

(** Without a repository, pull and push throw before they call anything. *)
Lemma dropdown_no_repository_throws (ws : Workspace) (force : bool) (w : World E State) :
  let props := {| workspace := ws; gitRepository := None |} in
  (res (_handlePull props w) = inl (Error "Tried to pull without configuring git repo")
   ∧ calls (_handlePull props w) = [])
  ∧ (res (_handlePush props force w)
     = inl (Error "Tried to push without configuring git repo")
     ∧ calls (_handlePush props force w) = []).
Proof. run_method. repeat split; reflexivity. Qed.

End DropdownProperties.

Section DropdownExamples.
Import GitSyncDropdown Scripted.

Lemma refresh_unconfigured_clears_cache_witness :
  GitVCS.isInitialized (engine (dropdownWorld uninitialized staleMeta)) = false
  ∧ calls (_refreshState dropdownProps None (dropdownWorld uninitialized staleMeta))
    = [metaGetOrCreateByParentId "wrk_1"; metaUpdateByParentId "wrk_1" clearedMeta]
  ∧ cachedGitLastCommitTime
      (getMeta "wrk_1"
         (database (final (_refreshState dropdownProps None
                             (dropdownWorld uninitialized staleMeta))))) = None.
Proof.
  split; [reflexivity|].
  assert (Hun : GitVCS.isInitialized (engine (dropdownWorld uninitialized staleMeta))
                = false
                ∨ gitRepositoryId
                    (getMeta "wrk_1" (database (dropdownWorld uninitialized staleMeta)))
                  = None) by (left; reflexivity).
  destruct (refresh_unconfigured_clears_cache dropdownProps None
              (dropdownWorld uninitialized staleMeta) Hun)
    as (_ & (_ & _ & Ht) & Hw & _).
  split; [apply Hw; left; discriminate | exact Ht].
Defined.


Lemma push_control_offered_witness :
  pushOffered true staleState = true.
Proof.
  apply (proj2 (push_control_offered true staleState)).
  split; [reflexivity | discriminate].
Defined.

(** C9, as stated, fails: with the engine not initialised and a log of one
    commit in the component state, the push control is suppressed although
    the log is not empty. *)
Lemma push_control_suppressed_despite_commits :
  ¬ (pushOffered false staleState = false ↔ log staleState = []).
Proof. intros [Hsup _]. specialize (Hsup eq_refl). discriminate. Qed.

End DropdownExamples.

Section FarFuture.
Import GitSyncDropdown Scripted Scenarios.


End FarFuture.

(** ** The branch manager *)

Section ModalProperties.
Context {Credentials E : Type} `{!GitVCS.t Credentials E}.
Import GitBranchesModal.

Local Ltac run_modal :=
  unfold _handleCheckout, _handleMerge, _handleDelete, _handleRemoteCheckout,
    _errorHandler, show, bind, try_catch, ret, throw, setState, uiCall,
    db_bufferChanges, db_flushChanges, dbCall,
    vcs_checkout, vcs_merge, vcs_deleteBranch, vcs_fetch, engineCall;
  simpl.

Local Ltac run_refresh :=
  unfold _refreshState, bind, setState, vcs_getBranch, vcs_listBranches,
    vcs_listRemoteBranches, engineCall;
  simpl.

(** The modal's refresh asks the engine for the branch and the two branch
    lists, and never fetches. *)
Lemma modal_refresh_no_fetch (newState : option (State → State)) (w : World E State) :
  fetchCalls (calls (_refreshState newState w)) = [].
Proof.
  run_refresh.
  destruct (GitVCS.getBranch (engine w)) as [[err|br] e1]; simpl; [reflexivity|].
  destruct (GitVCS.listBranches e1) as [[err|bs] e2]; simpl; [reflexivity|].
  destruct (GitVCS.listRemoteBranches e2) as [[err|rbs] e3]; reflexivity.
Qed.

Lemma modal_refresh_keeps_database
  (newState : option (State → State)) (w : World E State) :
  database (final (_refreshState newState w)) = database w.
Proof.
  run_refresh.
  destruct (GitVCS.getBranch (engine w)) as [[err|br] e1]; simpl; [reflexivity|].
  destruct (GitVCS.listBranches e1) as [[err|bs] e2]; simpl; [reflexivity|].
  destruct (GitVCS.listRemoteBranches e2) as [[err|rbs] e3]; reflexivity.
Qed.

(** The modal's checkout action.  When [vcs.checkout] succeeds it runs the
    whole sequence; when [vcs.checkout] fails the error handler takes over
    right there: the error is shown in the modal, and the buffer opened
    before the checkout is still open when the action returns. *)
Lemma modal_checkout_run (props : Props) (b : string) (w : World E State) :
  let id := Datatypes.S (bufferChangesId (database w)) in
  let provider := GitVCS.getOauth2FormatName (credentials (gitRepository props)) in
  let checked := GitVCS.checkout b (engine w) in
  let o := _handleCheckout props b w in
  res o = inr tt
  ∧ match checked.1 with
    | inr _ =>
        let w1 := {| engine := checked.2;
                     database := closeBuffer id (openBuffer (database w)).2;
                     state := state w |} in
        calls o =
          [dbBufferChanges id; vcsCheckout b;
           trackSegmentEvent
             (withProviderName (vcsSegmentEventProperties "git" "checkout_branch" None)
                provider);
           dbFlushChanges id true; handleInitializeEntities]
          ++ calls (_refreshState None w1)
        ∧ id ∉ openBuffers (database (final o))
    | inl err =>
        calls o = [dbBufferChanges id; vcsCheckout b]
        ∧ id ∈ openBuffers (database (final o))
        ∧ error (state (final o)) = message err
    end.
Proof.
  run_modal.
  destruct (GitVCS.checkout b (engine w)) as [[err|[]] e1]; simpl.
  - repeat split; try reflexivity. apply list_elem_of_here.
  - match goal with
    | |- context [_refreshState None ?w1] =>
        pose proof (modal_refresh_keeps_database None w1) as Hdb;
        destruct (_refreshState None w1) as [r cs wf]
    end.
    simpl in Hdb.
    destruct r as [err|[]]; simpl; rewrite Hdb, ?app_nil_r;
      repeat split; try reflexivity; apply flushed_buffer_is_closed.
Qed.

Lemma modal_checkout_no_fetch (props : Props) (b : string) (w : World E State) :
  fetchCalls (calls (_handleCheckout props b w)) = [].
Proof.
  pose proof (modal_checkout_run props b w) as Hrun. simpl in Hrun.
  destruct Hrun as [_ Hrun].
  destruct (GitVCS.checkout b (engine w)).1 as [err|[]].
  - destruct Hrun as (-> & _). reflexivity.
  - destruct Hrun as (-> & _). unfold fetchCalls. simpl.
    exact (modal_refresh_no_fetch _ _).
Qed.

(** When [vcs.merge] succeeds, the merge action goes on with the modal's
    checkout action for the same branch, and then records the merge. *)
Lemma modal_merge_then_checkout (props : Props) (b : string) (w : World E State) (e1 : E) :
  GitVCS.merge b (engine w) = (inr tt, e1) →
  let provider := GitVCS.getOauth2FormatName (credentials (gitRepository props)) in
  let w1 := {| engine := e1; database := database w; state := state w |} in
  calls (_handleMerge props b w) =
    [vcsMerge b]
    ++ calls (_handleCheckout props b w1)
    ++ [trackSegmentEvent
          (withProviderName (vcsSegmentEventProperties "git" "merge_branch" None) provider)].
Proof.
  intros Hm provider w1.
  pose proof (modal_checkout_run props b w1) as [Hres _]. simpl in Hres.
  unfold _handleMerge, _errorHandler, try_catch, bind, vcs_merge, engineCall, uiCall.
  simpl. rewrite Hm. simpl. fold w1.
  destruct (_handleCheckout props b w1) as [r cs wf]. simpl in Hres. subst r.
  reflexivity.
Qed.

(** C7. The remote-checkout action begins with
    [vcs.fetch(true, 20, credentials)], which is its only fetch, and when the
    fetch succeeds goes on with the checkout action for the branch; opening
    the branches view fetches once, with [vcs.fetch(false, 1, credentials)],
    after the first refresh of the view. *)
Theorem fetch_depths (props : Props) (b : string) (w : World E State) :
  let creds := credentials (gitRepository props) in
  (let o := _handleRemoteCheckout props b w in
   let fetched := GitVCS.fetch true 20 creds (engine w) in
   let w1 := {| engine := fetched.2; database := database w; state := state w |} in
   fetchCalls (calls o) = [(true, 20%Z, creds)]
   ∧ calls o = vcsFetch true 20 creds ::
               match fetched.1 with
               | inr _ => calls (_handleCheckout props b w1)
               | inl _ => []
               end)
  ∧ (let o := show props w in
     let first := _refreshState (Some (set_newBranchName "")) w in
     fetchCalls (calls o) =
       match res first with
       | inr _ => [(false, 1%Z, creds)]
       | inl _ => []
       end
     ∧ ∃ rest, calls o =
         calls first
         ++ match res first with
            | inr _ => [modalShow; setTimeoutFocusInput 100; vcsFetch false 1 creds] ++ rest
            | inl _ => []
            end).
Proof.
  intros creds. split.
  - intros o fetched w1. subst o fetched w1 creds.
    unfold _handleRemoteCheckout, _errorHandler, try_catch, bind, vcs_fetch, engineCall.
    simpl.
    destruct (GitVCS.fetch true 20 (credentials (gitRepository props)) (engine w))
      as [[err|[]] e1]; simpl; [split; reflexivity|].
    pose proof (modal_checkout_run props b
                  {| engine := e1; database := database w; state := state w |})
      as [Hres _].
    pose proof (modal_checkout_no_fetch props b
                  {| engine := e1; database := database w; state := state w |})
      as Hnf.
    destruct (_handleCheckout props b _) as [r cs wf]. simpl in Hres, Hnf. subst r.
    simpl. split; [|reflexivity].
    unfold fetchCalls in *. simpl. f_equal. exact Hnf.
  - intros o first. subst o first creds.
    unfold show, bind, uiCall, vcs_fetch, engineCall. simpl.
    pose proof (modal_refresh_no_fetch (Some (set_newBranchName "")) w) as Hnf.
    destruct (_refreshState (Some (set_newBranchName "")) w) as [r cs w1].
    simpl in Hnf. destruct r as [err|[]]; simpl.
    + split; [exact Hnf | exists []; by rewrite app_nil_r].
    + destruct (GitVCS.fetch false 1 (credentials (gitRepository props)) (engine w1))
        as [[err|[]] e1]; simpl.
      * split; [|exists []; reflexivity].
        unfold fetchCalls in *. rewrite omap_app, Hnf. reflexivity.
      * match goal with
        | |- context [_refreshState None ?w2] =>
            pose proof (modal_refresh_no_fetch None w2) as Hnf2;
            destruct (_refreshState None w2) as [r2 cs2 wf2]
        end.
        simpl in Hnf2. simpl. split; [|exists cs2; reflexivity].
        unfold fetchCalls in *. rewrite omap_app, Hnf. simpl. f_equal. exact Hnf2.
Qed.

(** [_errorHandler] turns an error of its callback into the modal's error
    notice, and does not throw. *)
Lemma modal_errorHandler_catches (cb : M Credentials E State unit) (w : World E State) :
  res (_errorHandler cb w) = inr tt
  ∧ ∀ err, res (cb w) = inl err →
           error (state (final (_errorHandler cb w))) = message err.
Proof.
  unfold _errorHandler, try_catch, setState.
  destruct (cb w) as [[err|[]] cs w1]; simpl.
  - split; [reflexivity|]. intros err' Heq. injection Heq as <-. reflexivity.
  - split; [reflexivity|]. intros ? ?; discriminate.
Qed.

Lemma modal_actions_do_not_throw (props : Props) (b : string) (w : World E State) :
  res (_handleCheckout props b w) = inr tt
  ∧ res (_handleMerge props b w) = inr tt
  ∧ res (_handleDelete props b w) = inr tt
  ∧ res (_handleRemoteCheckout props b w) = inr tt.
Proof. repeat split; apply modal_errorHandler_catches. Qed.

Lemma modal_errors_shown (props : Props) (b : string) (w : World E State) (err : JsError) :
  ((GitVCS.checkout b (engine w)).1 = inl err →
   error (state (final (_handleCheckout props b w))) = message err)
  ∧ ((GitVCS.merge b (engine w)).1 = inl err →
     error (state (final (_handleMerge props b w))) = message err)
  ∧ ((GitVCS.deleteBranch b (engine w)).1 = inl err →
     error (state (final (_handleDelete props b w))) = message err)
  ∧ ((GitVCS.fetch true 20 (credentials (gitRepository props)) (engine w)).1 = inl err →
     error (state (final (_handleRemoteCheckout props b w))) = message err).
Proof.
  repeat split; intros Hop; apply modal_errorHandler_catches;
    unfold bind, db_bufferChanges, dbCall, vcs_checkout, vcs_merge, vcs_deleteBranch,
      vcs_fetch, engineCall; simpl.
  - destruct (GitVCS.checkout b (engine w)) as [r e1]; simpl in *. by rewrite Hop.
  - destruct (GitVCS.merge b (engine w)) as [r e1]; simpl in *. by rewrite Hop.
  - destruct (GitVCS.deleteBranch b (engine w)) as [r e1]; simpl in *. by rewrite Hop.
  - destruct (GitVCS.fetch true 20 _ (engine w)) as [r e1]; simpl in *. by rewrite Hop.
Qed.

End ModalProperties.

Section ModalView.
Import GitBranchesModal.

Lemma includes_spec (bs : list string) (b : string) :
  includes bs b = true ↔ b ∈ bs.
Proof.
  unfold includes. induction bs as [|x bs IH]; simpl.
  - split; [discriminate | intros Hin; inversion Hin].
  - rewrite orb_true_iff, IH, elem_of_cons, String.eqb_eq. reflexivity.
Qed.

Lemma local_rows_offer_no_remote_checkout (st : State) (bs : list string) :
  omap remoteCheckoutTarget (concat (map buttons (map (localRow st) bs))) = [].
Proof.
  induction bs as [|b bs IH]; simpl; [reflexivity|].
  rewrite omap_app, IH, app_nil_r.
  destruct (negb (String.eqb b (branch st))); reflexivity.
Qed.

Lemma remote_rows_offer_their_names (names : list string) :
  omap remoteCheckoutTarget (concat (map buttons (map remoteRow names))) = names.
Proof.
  induction names as [|b bs IH]; simpl; [reflexivity|].
  cbn. f_equal. exact IH.
Qed.

Lemma remoteOnlyBranches_sublist (st : State) :
  remoteOnlyBranches st `sublist_of` remoteBranches st.
Proof.
  unfold remoteOnlyBranches.
  induction (remoteBranches st) as [|b bs IH]; simpl; [constructor|].
  destruct (negb (includes (branches st) b)); by constructor.
Qed.

(** C10. The branches [render] offers for remote checkout are the remote
    branches that are not local branches, in the order of the remote list;
    a name in both lists is listed as a local branch and gets no
    remote-checkout button. *)
Theorem remote_checkout_candidates (st : State) :
  let offered := remoteCheckoutOffered (render st) in
  (∀ b, b ∈ offered ↔ b ∈ remoteBranches st ∧ b ∉ branches st)
  ∧ offered `sublist_of` remoteBranches st
  ∧ offered = List.filter (fun b => negb (includes (branches st) b)) (remoteBranches st)
  ∧ localOffered (render st) = branches st
  ∧ (∀ b, b ∈ branches st → b ∈ localOffered (render st) ∧ b ∉ offered).
Proof.
  intros offered.
  assert (Hoff : offered = remoteOnlyBranches st).
  { subst offered. unfold remoteCheckoutOffered, rowsOf, render. simpl.
    rewrite map_app, concat_app, omap_app, local_rows_offer_no_remote_checkout.
    simpl. destruct (remoteOnlyBranches st) as [|r rs] eqn:Hr; simpl; [reflexivity|].
    f_equal. apply remote_rows_offer_their_names. }
  assert (Hmem : ∀ b, b ∈ offered ↔ b ∈ remoteBranches st ∧ b ∉ branches st).
  { intros b. rewrite Hoff. unfold remoteOnlyBranches.
    rewrite list_elem_of_In, filter_In, <- list_elem_of_In, negb_true_iff.
    rewrite <- !includes_spec.
    destruct (includes (branches st) b); intuition congruence. }
  assert (Hloc : localOffered (render st) = branches st).
  { unfold localOffered, render. simpl. rewrite map_map. simpl. apply map_id. }
  split; [exact Hmem|].
  split; [rewrite Hoff; apply remoteOnlyBranches_sublist|].
  split; [exact Hoff|].
  split; [exact Hloc|].
  intros b Hb. split; [by rewrite Hloc|].
  intros Hin. apply Hmem in Hin as [_ Hnot]. by apply Hnot.
Qed.

End ModalView.

Section ModalViewExamples.
Import GitBranchesModal Scripted.

Lemma remote_checkout_candidates_witness :
  ("main" ∈ branches refreshedModalState)
  ∧ ("main" ∈ localOffered (render refreshedModalState))
  ∧ ("main" ∉ remoteCheckoutOffered (render refreshedModalState))
  ∧ (remoteCheckoutOffered (render refreshedModalState) = ["hotfix"]).
Proof.
  assert (Hin : "main" ∈ branches refreshedModalState) by apply list_elem_of_here.
  destruct (remote_checkout_candidates refreshedModalState)
    as (_ & _ & Heq & _ & Hlocal).
  destruct (Hlocal "main" Hin) as [Hl Hr].
  split; [exact Hin|]. split; [exact Hl|]. split; [exact Hr|]. exact Heq.
Defined.

End ModalViewExamples.

(** ** The action boundary *)

(** Runs against an engine that records what it raises ([Logged.vcs]). *)
Section LoggedRuns.
Context {Credentials E : Type} `{!GitVCS.t Credentials E}.

Local Abbreviation LE := (E * list JsError)%type.
Local Abbreviation raisedIn o := (Logged.raised (engine (final o))).

Local Ltac unfold_engine :=
  unfold bind, try_catch, ret, throw, setState, uiCall, getState,
    db_bufferChanges, db_flushChanges, dbCall,
    vcs_getBranch, vcs_listBranches, vcs_listRemoteBranches,
    vcs_checkout, vcs_merge, vcs_deleteBranch, vcs_fetch,
    vcs_pull, vcs_push, vcs_canPush, engineCall, Logged.raised;
  simpl.

(** No throw; and no error raised, or one more than before, which is the
    one in the notice. *)
Local Abbreviation shownOrNone before o :=
  (res o = inr tt
   ∧ (raisedIn o = before%list
      ∨ ∃ err, raisedIn o = (before ++ [err])%list
               ∧ GitBranchesModal.error (state (final o)) = message err)).

Lemma modal_refresh_logged
  (newState : option (GitBranchesModal.State → GitBranchesModal.State))
  (w : World LE GitBranchesModal.State) :
  let o := GitBranchesModal._refreshState (H := Logged.vcs) newState w in
  match res o with
  | inr _ => raisedIn o = Logged.raised (engine w)
  | inl err => raisedIn o = Logged.raised (engine w) ++ [err] ∧ state (final o) = state w
  end.
Proof.
  unfold GitBranchesModal._refreshState. unfold_engine.
  destruct (GitVCS.getBranch (engine w).1) as [[err|br] e1]; simpl;
    [split; reflexivity|].
  destruct (GitVCS.listBranches e1) as [[err|bs] e2]; simpl; [split; reflexivity|].
  destruct (GitVCS.listRemoteBranches e2) as [[err|rbs] e3]; simpl;
    [split; reflexivity|reflexivity].
Qed.

Lemma modal_checkout_logged
  (props : GitBranchesModal.Props) (b : string) (w : World LE GitBranchesModal.State) :
  shownOrNone (Logged.raised (engine w))
    (GitBranchesModal._handleCheckout (H := Logged.vcs) props b w).
Proof.
  unfold GitBranchesModal._handleCheckout, GitBranchesModal._errorHandler.
  unfold_engine.
  destruct (GitVCS.checkout b (engine w).1) as [[err|[]] e1]; simpl.
  - split; [reflexivity|]. right. by exists err.
  - match goal with
    | |- context [GitBranchesModal._refreshState None ?w1] =>
        pose proof (modal_refresh_logged None w1) as Hlog;
        destruct (GitBranchesModal._refreshState None w1) as [[err|[]] cs wf]
    end; simpl in *.
    + destruct Hlog as [Hraised _]. split; [reflexivity|]. right. by exists err.
    + split; [reflexivity|]. by left.
Qed.

Lemma modal_merge_logged
  (props : GitBranchesModal.Props) (b : string) (w : World LE GitBranchesModal.State) :
  shownOrNone (Logged.raised (engine w))
    (GitBranchesModal._handleMerge (H := Logged.vcs) props b w).
Proof.
  unfold GitBranchesModal._handleMerge, GitBranchesModal._errorHandler.
  unfold_engine.
  destruct (GitVCS.merge b (engine w).1) as [[err|[]] e1]; simpl.
  - split; [reflexivity|]. right. by exists err.
  - match goal with
    | |- context [GitBranchesModal._handleCheckout props b ?w1] =>
        pose proof (modal_checkout_logged props b w1) as [Hres Hshown];
        destruct (GitBranchesModal._handleCheckout props b w1) as [r cs wf]
    end; simpl in *. subst r. simpl. split; [reflexivity | exact Hshown].
Qed.

Lemma modal_remote_checkout_logged
  (props : GitBranchesModal.Props) (b : string) (w : World LE GitBranchesModal.State) :
  shownOrNone (Logged.raised (engine w))
    (GitBranchesModal._handleRemoteCheckout (H := Logged.vcs) props b w).
Proof.
  unfold GitBranchesModal._handleRemoteCheckout, GitBranchesModal._errorHandler.
  unfold_engine.
  destruct (GitVCS.fetch true 20 _ (engine w).1) as [[err|[]] e1]; simpl.
  - split; [reflexivity|]. right. by exists err.
  - match goal with
    | |- context [GitBranchesModal._handleCheckout props b ?w1] =>
        pose proof (modal_checkout_logged props b w1) as [Hres Hshown];
        destruct (GitBranchesModal._handleCheckout props b w1) as [r cs wf]
    end; simpl in *. subst r. simpl. split; [reflexivity | exact Hshown].
Qed.

Lemma modal_delete_logged
  (props : GitBranchesModal.Props) (b : string) (w : World LE GitBranchesModal.State) :
  shownOrNone (Logged.raised (engine w))
    (GitBranchesModal._handleDelete (H := Logged.vcs) props b w).
Proof.
  unfold GitBranchesModal._handleDelete, GitBranchesModal._errorHandler.
  unfold_engine.
  destruct (GitVCS.deleteBranch b (engine w).1) as [[err|[]] e1]; simpl.
  - split; [reflexivity|]. right. by exists err.
  - match goal with
    | |- context [GitBranchesModal._refreshState None ?w1] =>
        pose proof (modal_refresh_logged None w1) as Hlog;
        destruct (GitBranchesModal._refreshState None w1) as [[err|[]] cs wf]
    end; simpl in *.
    + destruct Hlog as [Hraised _]. split; [reflexivity|]. right. by exists err.
    + split; [reflexivity|]. by left.
Qed.

Lemma dropdown_pull_logged
  (ws : GitSyncDropdown.Workspace) (repo : GitSyncDropdown.GitRepository)
  (w : World LE GitSyncDropdown.State) :
  let props := {| GitSyncDropdown.workspace := ws;
                  GitSyncDropdown.gitRepository := Some repo |} in
  let o := GitSyncDropdown._handlePull (H := Logged.vcs) props w in
  res o = inr tt
  ∧ (raisedIn o = Logged.raised (engine w)
     ∨ ∃ err, raisedIn o = Logged.raised (engine w) ++ [err]
              ∧ showError "Error Pulling Repository" err ∈ calls o).
Proof.
  unfold GitSyncDropdown._handlePull. unfold_engine.
  destruct (GitVCS.pull (GitSyncDropdown.credentials repo) (engine w).1)
    as [[err|[]] e1]; simpl; (split; [reflexivity|]); [right | by left].
  exists err. split; [reflexivity | set_solver].
Qed.

Lemma dropdown_push_logged
  (ws : GitSyncDropdown.Workspace) (repo : GitSyncDropdown.GitRepository)
  (force : bool) (w : World LE GitSyncDropdown.State) :
  let props := {| GitSyncDropdown.workspace := ws;
                  GitSyncDropdown.gitRepository := Some repo |} in
  let o := GitSyncDropdown._handlePush (H := Logged.vcs) props force w in
  res o = inr tt
  ∧ (raisedIn o = Logged.raised (engine w)
     ∨ ∃ err, raisedIn o = Logged.raised (engine w) ++ [err]
              ∧ (showError "Error Pushing Repository" err ∈ calls o
                 ∨ GitSyncDropdown.isPushRejected err = true
                   ∧ showAlert GitSyncDropdown.pushRejectedAlert ∈ calls o)).
Proof.
  unfold GitSyncDropdown._handlePush. unfold_engine.
  destruct (GitVCS.canPush (GitSyncDropdown.credentials repo) (engine w).1)
    as [[err|[|]] e1]; simpl.
  - split; [reflexivity|]. right. exists err. split; [reflexivity|]. left. set_solver.
  - destruct (GitVCS.push (GitSyncDropdown.credentials repo) force e1)
      as [[err|[]] e2]; simpl.
    + destruct (GitSyncDropdown.isPushRejected err) eqn:Hrej; simpl;
        (split; [reflexivity|]); right; exists err; (split; [reflexivity|]).
      * right. split; [exact Hrej | set_solver].
      * left. set_solver.
    + split; [reflexivity|]. by left.
  - split; [reflexivity|]. by left.
Qed.

End LoggedRuns.

Section Boundary.
Context {Credentials E : Type} `{!GitVCS.t Credentials E}.

Local Abbreviation LE := (E * list JsError)%type.

(** C8 (amended). The engine records the errors it raises ([Logged.vcs],
    starting from none): each of its methods answers as the method of the
    engine underneath and adds the error to the record when it rejects.

    The four actions of the branch manager (checkout, merge, delete, remote
    checkout) never throw, and every error the engine raises during one of
    them becomes the modal's error notice: its message is put in the state,
    and [render] shows it unless the message is empty.

    With a repository configured, pull and push never throw and every error
    the engine raises during them is reported: by [showError], or for a
    push rejected with [PushRejectedError] by the force-push alert.  An
    error of [vcs.checkout] in the dropdown's checkout is reported by
    [showError].

    With no repository configured, pull and push make no report and no call:
    they throw an error. *)
Theorem engine_errors_reported_at_boundary :
  (let records (A : Type) (logged : LE → result A * LE) (plain : E → result A * E) :=
     ∀ (e : E) (errs : list JsError),
       (logged (e, errs)).1 = (plain e).1
       ∧ (logged (e, errs)).2.1 = (plain e).2
       ∧ Logged.raised (logged (e, errs)).2
         = errs ++ match (plain e).1 with inl err => [err] | inr _ => [] end in
   records _ (GitVCS.getBranch (t := Logged.vcs)) GitVCS.getBranch
   ∧ records _ (GitVCS.listBranches (t := Logged.vcs)) GitVCS.listBranches
   ∧ records _ (GitVCS.listRemoteBranches (t := Logged.vcs)) GitVCS.listRemoteBranches
   ∧ records _ (GitVCS.log (t := Logged.vcs)) GitVCS.log
   ∧ (∀ b, records _ (GitVCS.checkout (t := Logged.vcs) b) (GitVCS.checkout b))
   ∧ (∀ b, records _ (GitVCS.merge (t := Logged.vcs) b) (GitVCS.merge b))
   ∧ (∀ b, records _ (GitVCS.deleteBranch (t := Logged.vcs) b) (GitVCS.deleteBranch b))
   ∧ (∀ c, records _ (GitVCS.canPush (t := Logged.vcs) c) (GitVCS.canPush c))
   ∧ (∀ c f, records _ (GitVCS.push (t := Logged.vcs) c f) (GitVCS.push c f))
   ∧ (∀ c, records _ (GitVCS.pull (t := Logged.vcs) c) (GitVCS.pull c))
   ∧ (∀ a n c, records _ (GitVCS.fetch (t := Logged.vcs) a n c) (GitVCS.fetch a n c)))
  ∧ (∀ (props : GitBranchesModal.Props) (b : string) (e : E) (d : Database)
     (st : GitBranchesModal.State),
     let w : World LE GitBranchesModal.State :=
       {| engine := (e, []); database := d; state := st |} in
     let noticed (o : Outcome Credentials LE GitBranchesModal.State unit) :=
       res o = inr tt
       ∧ ∀ err, err ∈ Logged.raised (engine (final o)) →
           GitBranchesModal.error (state (final o)) = message err
           ∧ GitBranchesModal.errorNotice (GitBranchesModal.render (state (final o)))
             = (if String.eqb (message err) "" then None else Some (message err)) in
     noticed (GitBranchesModal._handleCheckout (H := Logged.vcs) props b w)
     ∧ noticed (GitBranchesModal._handleMerge (H := Logged.vcs) props b w)
     ∧ noticed (GitBranchesModal._handleDelete (H := Logged.vcs) props b w)
     ∧ noticed (GitBranchesModal._handleRemoteCheckout (H := Logged.vcs) props b w))
  ∧ (∀ (ws : GitSyncDropdown.Workspace) (repo : GitSyncDropdown.GitRepository)
       (force : bool) (e : E) (d : Database) (st : GitSyncDropdown.State),
       let w : World LE GitSyncDropdown.State :=
         {| engine := (e, []); database := d; state := st |} in
       let props := {| GitSyncDropdown.workspace := ws;
                       GitSyncDropdown.gitRepository := Some repo |} in
       let pulled := GitSyncDropdown._handlePull (H := Logged.vcs) props w in
       let pushed := GitSyncDropdown._handlePush (H := Logged.vcs) props force w in
       res pulled = inr tt
       ∧ (∀ err, err ∈ Logged.raised (engine (final pulled)) →
                 showError "Error Pulling Repository" err ∈ calls pulled)
       ∧ res pushed = inr tt
       ∧ (∀ err, err ∈ Logged.raised (engine (final pushed)) →
                 showError "Error Pushing Repository" err ∈ calls pushed
                 ∨ GitSyncDropdown.isPushRejected err = true
                   ∧ showAlert GitSyncDropdown.pushRejectedAlert ∈ calls pushed))
  ∧ (∀ (props : GitSyncDropdown.Props) (b : string)
       (w : World E GitSyncDropdown.State) (err : JsError),
       (GitVCS.checkout b (engine w)).1 = inl err →
       showError "Checkout Error" err
       ∈ calls (GitSyncDropdown._handleCheckoutBranch props b w))
  ∧ (∀ (ws : GitSyncDropdown.Workspace) (force : bool)
       (w : World E GitSyncDropdown.State),
       let props := {| GitSyncDropdown.workspace := ws;
                       GitSyncDropdown.gitRepository := None |} in
       (res (GitSyncDropdown._handlePull props w)
        = inl (Error "Tried to pull without configuring git repo")
        ∧ calls (GitSyncDropdown._handlePull props w) = [])
       ∧ (res (GitSyncDropdown._handlePush props force w)
          = inl (Error "Tried to push without configuring git repo")
          ∧ calls (GitSyncDropdown._handlePush props force w) = [])).
Proof.
  assert (Hnotice : ∀ (o : Outcome Credentials LE GitBranchesModal.State unit),
             (res o = inr tt
              ∧ (Logged.raised (engine (final o)) = []
                 ∨ ∃ err, Logged.raised (engine (final o)) = [] ++ [err]
                          ∧ GitBranchesModal.error (state (final o)) = message err)) →
             res o = inr tt
             ∧ ∀ err, err ∈ Logged.raised (engine (final o)) →
                 GitBranchesModal.error (state (final o)) = message err
                 ∧ GitBranchesModal.errorNotice
                     (GitBranchesModal.render (state (final o)))
                   = (if String.eqb (message err) "" then None
                      else Some (message err))).
  { intros o [Hres Hraised]. split; [exact Hres|]. intros err Hin.
    destruct Hraised as [Hnone | (err' & Hone & Hshown)].
    - rewrite Hnone in Hin. inversion Hin.
    - rewrite Hone in Hin. simpl in Hin. apply list_elem_of_singleton in Hin as ->.
      split; [exact Hshown|]. unfold GitBranchesModal.render; simpl.
      by rewrite Hshown. }
  assert (Hnoting : ∀ (A : Type) (errs : list JsError) (answer : result A * E),
             (Logged.noting errs answer).1 = answer.1
             ∧ (Logged.noting errs answer).2.1 = answer.2
             ∧ Logged.raised (Logged.noting errs answer).2
               = errs ++ match answer.1 with inl err => [err] | inr _ => [] end).
  { intros A errs [[err|a] e]; simpl; repeat split; try reflexivity.
    unfold Logged.raised; simpl. by rewrite app_nil_r. }
  split; [|split; [|split; [|split]]].
  - cbv zeta. repeat split; intros; simpl; apply Hnoting.
  - intros props b e d st w noticed. subst noticed. cbv beta.
    split; [|split; [|split]]; apply Hnotice.
    + exact (modal_checkout_logged props b w).
    + exact (modal_merge_logged props b w).
    + exact (modal_delete_logged props b w).
    + exact (modal_remote_checkout_logged props b w).
  - intros ws repo force e d st w props pulled pushed.
    destruct (dropdown_pull_logged ws repo w) as [Hpull Hpulled].
    destruct (dropdown_push_logged ws repo force w) as [Hpush Hpushed].
    fold props in Hpull, Hpulled, Hpush, Hpushed.
    fold pulled in Hpull, Hpulled. fold pushed in Hpush, Hpushed.
    split; [exact Hpull|]. split; [|split; [exact Hpush|]].
    + intros err Hin. destruct Hpulled as [Hnone | (err' & Hone & Hshown)].
      * rewrite Hnone in Hin. inversion Hin.
      * rewrite Hone in Hin. simpl in Hin.
        apply list_elem_of_singleton in Hin as ->. exact Hshown.
    + intros err Hin. destruct Hpushed as [Hnone | (err' & Hone & Hshown)].
      * rewrite Hnone in Hin. inversion Hin.
      * rewrite Hone in Hin. simpl in Hin.
        apply list_elem_of_singleton in Hin as ->. exact Hshown.
  - exact dropdown_checkout_reports.
  - exact dropdown_no_repository_throws.
Qed.

End Boundary.

Section BoundaryExamples.
Import Scripted Scenarios.

Lemma engine_errors_reported_at_boundary_witness :
  let pulled :=
    GitSyncDropdown._handlePull (H := Logged.vcs) dropdownProps
      {| engine := (uninitialized, []); database := dbWith configuredMeta;
         state := GitSyncDropdown.initialState |} in
  Error "git not initialized" ∈ Logged.raised (engine (final pulled))
  ∧ showError "Error Pulling Repository" (Error "git not initialized")
    ∈ calls pulled.
Proof.
  intros pulled.
  assert (Hin : Error "git not initialized" ∈ Logged.raised (engine (final pulled)))
    by apply list_elem_of_here.
  split; [exact Hin|].
  destruct (@engine_errors_reported_at_boundary string Engine vcs)
    as (_ & _ & Hdrop & _).
  destruct (Hdrop {| GitSyncDropdown._id := "wrk_1" |}
                  {| GitSyncDropdown.credentials := "token" |}
                  false uninitialized (dbWith configuredMeta)
                  GitSyncDropdown.initialState)
    as (_ & Hpull & _).
  exact (Hpull (Error "git not initialized") Hin).
Defined.

(** C8, as stated, fails, in two ways.  Pull with no repository configured
    throws out of the action, and nothing is reported.  And an engine error
    without a message, caught in the branch manager, leaves nothing to see:
    no notice is rendered and the state is as before. *)
Lemma errors_without_report :
  (let o := GitSyncDropdown._handlePull dropdownPropsNoRepository
              (dropdownWorld healthy configuredMeta) in
   res o = inl (Error "Tried to pull without configuring git repo")
   ∧ calls o = [])
  ∧ (let o := GitBranchesModal._handleDelete modalProps "feature"
                (modalWorld silentRefusal) in
     (GitVCS.deleteBranch "feature" silentRefusal).1 = inl silent
     ∧ res o = inr tt
     ∧ calls o = [vcsDeleteBranch "feature"]
     ∧ GitBranchesModal.errorNotice (GitBranchesModal.render (state (final o))) = None
     ∧ state (final o) = state (modalWorld silentRefusal)).
Proof. repeat split; reflexivity. Qed.

(** C1, at the failing input.  The engine refuses the checkout.  The
    dropdown's action reports the error and flushes the buffer it opened; the
    branch manager's action stops at the failed call: no flush, no
    reinitialisation, no refresh, and buffer 1 stays open. *)
Theorem modal_checkout_failure_leaves_buffer_open :
  let dropdown := GitSyncDropdown._handleCheckoutBranch dropdownProps "feature"
                    (dropdownWorld checkoutFails configuredMeta) in
  let modal := GitBranchesModal._handleCheckout modalProps "feature"
                 (modalWorld checkoutFails) in
  (GitVCS.checkout "feature" checkoutFails).1 = inl conflict
  ∧ calls dropdown =
      [dbBufferChanges 1; vcsCheckout "feature"; showError "Checkout Error" conflict;
       dbFlushChanges 1 true; handleInitializeEntities;
       metaGetOrCreateByParentId "wrk_1"; vcsGetBranch; vcsListBranches; vcsLog;
       metaUpdateByParentId "wrk_1"
         {| patchBranch := Some "main"; patchAuthor := Some "Ada";
            patchCommitTime := Some 1700000000000%Z |}]
  ∧ openBuffers (database (final dropdown)) = []
  ∧ res modal = inr tt
  ∧ calls modal = [dbBufferChanges 1; vcsCheckout "feature"]
  ∧ openBuffers (database (final modal)) = [1%nat]
  ∧ GitBranchesModal.error (state (final modal)) = message conflict.
Proof. repeat split; reflexivity. Qed.

(** C5, at the failing input.  The merge succeeds and the checkout that
    follows is refused: the checkout sequence stops at the failed call, the
    buffer stays open, and the merge is recorded as done. *)
Theorem modal_merge_failed_checkout_leaves_buffer_open :
  let o := GitBranchesModal._handleMerge modalProps "feature" (modalWorld checkoutFails) in
  (GitVCS.merge "feature" checkoutFails).1 = inr tt
  ∧ res o = inr tt
  ∧ calls o =
      [vcsMerge "feature"; dbBufferChanges 1; vcsCheckout "feature";
       trackSegmentEvent
         {| vcsType := "git"; vcsAction := "merge_branch"; vcsError := None;
            providerName := Some "github" |}]
  ∧ openBuffers (database (final o)) = [1%nat]
  ∧ GitBranchesModal.error (state (final o)) = message conflict.
Proof. repeat split; reflexivity. Qed.

End BoundaryExamples.

(** * Further properties of the components *)

(** ** The metadata store *)

Section StoreFacts.

Lemma getMeta_putMeta (wid : string) (m : WorkspaceMeta) (d : Database) :
  getMeta wid (putMeta wid m d) = m.
Proof. unfold getMeta, putMeta; simpl. by rewrite lookup_insert_eq. Qed.

Lemma putMeta_other (wid other : string) (m : WorkspaceMeta) (d : Database) :
  other ≠ wid →
  workspaceMetas (putMeta wid m d) !! other = workspaceMetas d !! other.
Proof. intros Hne. unfold putMeta; simpl. by rewrite lookup_insert_ne. Qed.

(** Closing the buffer that was just opened gives back the buffers that were
    open before, when these are ids handed out earlier. *)
Lemma close_after_open (d : Database) :
  buffersWellFormed d →
  filter (fun i => i <> Datatypes.S (bufferChangesId d))
         (Datatypes.S (bufferChangesId d) :: openBuffers d)
  = openBuffers d.
Proof.
  unfold buffersWellFormed. intros Hwf.
  rewrite filter_cons_False by (intros Hne; by apply Hne).
  induction Hwf as [|i l Hi _ IH]; [reflexivity|].
  rewrite filter_cons_True by lia. by rewrite IH.
Qed.

End StoreFacts.

(** ** The dropdown's refresh *)

Section DropdownRefresh.
Context {Credentials E : Type} `{!GitVCS.t Credentials E}.
Import GitSyncDropdown.

Local Arguments putMeta : simpl never.
Local Arguments getMeta : simpl never.
Local Arguments applyPatch : simpl never.

Local Ltac run_refresh :=
  unfold _refreshState, bind, ret, setState,
    workspaceMeta_getOrCreateByParentId, workspaceMeta_updateByParentId, dbCall,
    vcs_isInitialized, vcs_getBranch, vcs_listBranches, vcs_log, engineCall;
  simpl.

Local Ltac refresh_cases w :=
  run_refresh;
  destruct (negb (GitVCS.isInitialized (engine w)) || falsy _) eqn:Hguard; simpl;
  [ destruct (isNotNullOrUndefined _ || _) eqn:Hneeds; simpl
  | destruct (GitVCS.getBranch (engine w)) as [[err|br] e1] eqn:Hbr; simpl;
    [ | destruct (GitVCS.listBranches e1) as [[err|bs] e2] eqn:Hbs; simpl;
        [ | destruct (GitVCS.log e2) as [[err|l] e3] eqn:Hlog; simpl ] ] ].

Lemma dropdown_refresh_keeps_buffers
  (props : Props) (otherState : option (State → State)) (w : World E State) :
  openBuffers (database (final (_refreshState props otherState w)))
  = openBuffers (database w).
Proof. refresh_cases w; reflexivity. Qed.

(** The refresh touches one record of the store and nothing else of the
    database: no buffer is opened or closed, no other workspace's metadata
    changes, and the repository id of the workspace's own record stays. *)
Theorem dropdown_refresh_frame
  (props : Props) (otherState : option (State → State)) (w : World E State) :
  let wid := _id (workspace props) in
  let o := _refreshState props otherState w in
  openBuffers (database (final o)) = openBuffers (database w)
  ∧ bufferChangesId (database (final o)) = bufferChangesId (database w)
  ∧ gitRepositoryId (getMeta wid (database (final o)))
    = gitRepositoryId (getMeta wid (database w))
  ∧ (∀ other, other ≠ wid →
       workspaceMetas (database (final o)) !! other
       = workspaceMetas (database w) !! other).
Proof.
  intros wid o. subst o. refresh_cases w; fold wid;
    rewrite ?getMeta_putMeta;
    (split; [reflexivity|]); (split; [reflexivity|]); (split; [reflexivity|]);
    intros other Hne;
    rewrite ?lookup_insert_ne by (intros Heq; apply Hne; symmetry; exact Heq);
    reflexivity.
Qed.

(** A refresh that fails (the engine rejects [getBranch], [listBranches] or
    [log]) throws that error and changes nothing the user sees: the
    component state is as before, the cached metadata of the workspace is as
    before, and no metadata write is issued. *)
Theorem dropdown_refresh_failure_changes_nothing
  (props : Props) (otherState : option (State → State)) (w : World E State)
  (thrown : JsError) :
  let wid := _id (workspace props) in
  let o := _refreshState props otherState w in
  res o = inl thrown →
  state (final o) = state w
  ∧ getMeta wid (database (final o)) = getMeta wid (database w)
  ∧ existsb isMetaWrite (calls o) = false
  ∧ (GitVCS.isInitialized (engine w) = true
     ∧ falsy (gitRepositoryId (getMeta wid (database w))) = false).
Proof.
  intros wid o. subst o. refresh_cases w; fold wid; intros Hres;
    try discriminate Hres; rewrite ?getMeta_putMeta;
    apply orb_false_iff in Hguard as [Hinit Hid];
    apply negb_false_iff in Hinit; repeat split; done.
Qed.

(** While the repository is unconfigured a refresh makes no engine call and
    leaves the component state, stale log included, as it was. *)
Theorem dropdown_refresh_unconfigured_keeps_state
  (props : Props) (otherState : option (State → State)) (w : World E State) :
  let wid := _id (workspace props) in
  GitVCS.isInitialized (engine w) = false
  ∨ falsy (gitRepositoryId (getMeta wid (database w))) = true →
  let o := _refreshState props otherState w in
  state (final o) = state w
  ∧ engine (final o) = engine w
  ∧ existsb isEngineCall (calls o) = false.
Proof.
  intros wid Hun o. subst o.
  assert (Hg : negb (GitVCS.isInitialized (engine w))
               || falsy (gitRepositoryId (getMeta wid (database w))) = true).
  { destruct Hun as [-> | ->]; [reflexivity | apply orb_true_r]. }
  refresh_cases w; fold wid in Hguard; try congruence; repeat split; reflexivity.
Qed.

(** The redundant-write guard works: once a refresh has run with the
    repository unconfigured, a second refresh in that situation issues no
    write and leaves the database as the first one left it. *)
Theorem dropdown_refresh_unconfigured_twice
  (props : Props) (s1 s2 : option (State → State)) (w : World E State) :
  let wid := _id (workspace props) in
  GitVCS.isInitialized (engine w) = false
  ∨ falsy (gitRepositoryId (getMeta wid (database w))) = true →
  let o1 := _refreshState props s1 w in
  let o2 := _refreshState props s2 (final o1) in
  res o2 = inr tt
  ∧ calls o2 = [metaGetOrCreateByParentId wid]
  ∧ database (final o2) = database (final o1).
Proof.
  intros wid Hun o1 o2. subst wid.
  set (wid := _id (workspace props)) in *.
  assert (Hg : negb (GitVCS.isInitialized (engine w))
               || falsy (gitRepositoryId (getMeta wid (database w))) = true).
  { destruct Hun as [-> | ->]; [reflexivity | apply orb_true_r]. }
  assert (Hfirst : engine (final o1) = engine w
                   ∧ gitRepositoryId (getMeta wid (database (final o1)))
                     = gitRepositoryId (getMeta wid (database w))
                   ∧ cachedGitRepositoryBranch (getMeta wid (database (final o1))) = None
                   ∧ cachedGitLastAuthor (getMeta wid (database (final o1))) = None
                   ∧ cachedGitLastCommitTime (getMeta wid (database (final o1))) = None
                   ∧ workspaceMetas (database (final o1)) !! wid
                     = Some (getMeta wid (database (final o1)))).
  { subst o1. unfold wid in *. clear wid. refresh_cases w; try congruence;
      rewrite ?getMeta_putMeta; rewrite ?lookup_insert_eq.
    - repeat split; reflexivity.
    - apply orb_false_iff in Hneeds as [Hb Hneeds].
      apply orb_false_iff in Hneeds as [Ha Hneeds].
      apply orb_false_iff in Hneeds as [Ht _].
      destruct (cachedGitRepositoryBranch _); [discriminate|].
      destruct (cachedGitLastAuthor _); [discriminate|].
      destruct (cachedGitLastCommitTime _); [discriminate|].
      repeat split; reflexivity. }
  destruct Hfirst as (He & Hid & Hb & Ha & Ht & Hl).
  subst o2. generalize dependent (final o1). clear o1. intros w1 He Hid Hb Ha Ht Hl.
  unfold wid in *. clear wid.
  refresh_cases w1.
  - rewrite Hb, Ha, Ht in Hneeds. discriminate.
  - repeat split; try reflexivity.
    destruct (database w1) as [n bs ms]; simpl in *.
    unfold putMeta; simpl. f_equal. by apply insert_id.
  - rewrite He, Hid, Hg in Hguard. discriminate.
  - rewrite He, Hid, Hg in Hguard. discriminate.
  - rewrite He, Hid, Hg in Hguard. discriminate.
  - rewrite He, Hid, Hg in Hguard. discriminate.
Qed.

Lemma branch_items_are_not_push (st : State) (bs : list string) :
  existsb isPush (map (renderBranch st) bs) = false.
Proof. induction bs as [|b bs IH]; [reflexivity | exact IH]. Qed.

(** A refresh on a repository without commits ([log()] gives an empty list,
    or nothing at all) caches the branch, caches null for the last author
    and the last commit time, and the menu drawn from the new state offers
    no push. *)
Theorem dropdown_refresh_empty_log
  (props : Props) (otherState : option (State → State)) (w : World E State)
  (br : string) (bs : list string) (l : option (list GitLogEntry)) (e1 e2 e3 : E) :
  let wid := _id (workspace props) in
  GitVCS.isInitialized (engine w) = true →
  falsy (gitRepositoryId (getMeta wid (database w))) = false →
  GitVCS.getBranch (engine w) = (inr br, e1) →
  GitVCS.listBranches e1 = (inr bs, e2) →
  GitVCS.log e2 = (inr l, e3) →
  default [] l = [] →
  let o := _refreshState props otherState w in
  let after := getMeta wid (database (final o)) in
  res o = inr tt
  ∧ calls o = [metaGetOrCreateByParentId wid; vcsGetBranch; vcsListBranches; vcsLog;
               metaUpdateByParentId wid
                 {| patchBranch := Some br; patchAuthor := None;
                    patchCommitTime := None |}]
  ∧ cachedGitRepositoryBranch after = Some br
  ∧ cachedGitLastAuthor after = None
  ∧ cachedGitLastCommitTime after = None
  ∧ log (state (final o)) = []
  ∧ pushOffered true (state (final o)) = false.
Proof.
  intros wid Hinit Hid Hbr Hbs Hlog Hempty o after. subst o after wid.
  run_refresh. rewrite Hinit, Hid; simpl. rewrite Hbr; simpl. rewrite Hbs; simpl.
  rewrite Hlog; simpl. rewrite Hempty; simpl. rewrite !getMeta_putMeta.
  repeat split; try reflexivity.
  unfold pushOffered, render; simpl.
  rewrite existsb_app, branch_items_are_not_push. reflexivity.
Qed.

(** The menu after a refresh that succeeded, in terms of what the engine
    answered: one item per branch of [listBranches], in that order, the one
    equal to [getBranch] marked current; Push present when the log has a
    commit; History counting the log and disabled when it is empty. *)
Theorem dropdown_refresh_then_menu
  (props : Props) (otherState : option (State → State)) (w : World E State)
  (br : string) (bs : list string) (l : option (list GitLogEntry)) (e1 e2 e3 : E) :
  let wid := _id (workspace props) in
  GitVCS.isInitialized (engine w) = true →
  falsy (gitRepositoryId (getMeta wid (database w))) = false →
  GitVCS.getBranch (engine w) = (inr br, e1) →
  GitVCS.listBranches e1 = (inr bs, e2) →
  GitVCS.log e2 = (inr l, e3) →
  let o := _refreshState props otherState w in
  let before := default (fun s => s) otherState (state w) in
  let commits := default [] l in
  log (state (final o)) = commits
  ∧ branch (state (final o)) = br
  ∧ branches (state (final o)) = bs
  ∧ render true (state (final o)) =
      [DividerGitSync; ItemRepositorySettings; ItemBranches; DividerBranches]
      ++ map (fun b => ItemBranch b (String.eqb b br)) bs
      ++ [DividerCurrentBranch br; ItemCommit]
      ++ match commits with
         | [] => []
         | _ :: _ => [ItemPush (loadingPush before)]
         end
      ++ [ItemPull (loadingPull before);
          ItemHistory (length commits) (match commits with [] => true | _ => false end)].
Proof.
  intros wid Hinit Hid Hbr Hbs Hlog o before commits. subst o wid.
  run_refresh. rewrite Hinit, Hid; simpl. rewrite Hbr; simpl. rewrite Hbs; simpl.
  rewrite Hlog; simpl. fold commits. fold before.
  repeat split; try reflexivity.
  unfold render; simpl. do 4 f_equal.
  destruct commits; reflexivity.
Qed.

End DropdownRefresh.

Section DropdownRefreshExamples.
Import GitSyncDropdown Scripted Scenarios.

Lemma dropdown_refresh_frame_witness :
  workspaceMetas
    (database (final (_refreshState dropdownProps None
                        (dropdownWorld healthy configuredMeta)))) !! "wrk_2"
  = workspaceMetas (database (dropdownWorld healthy configuredMeta)) !! "wrk_2".
Proof.
  destruct (dropdown_refresh_frame dropdownProps None
              (dropdownWorld healthy configuredMeta)) as (_ & _ & _ & Hother).
  apply Hother. discriminate.
Defined.

Lemma dropdown_refresh_failure_changes_nothing_witness :
  res (_refreshState dropdownProps None (dropdownWorld unreadable cachedMeta))
  = inl corrupt
  ∧ getMeta "wrk_1"
      (database (final (_refreshState dropdownProps None
                          (dropdownWorld unreadable cachedMeta))))
    = cachedMeta.
Proof.
  assert (Hres : res (_refreshState dropdownProps None
                        (dropdownWorld unreadable cachedMeta)) = inl corrupt)
    by reflexivity.
  split; [exact Hres|].
  destruct (dropdown_refresh_failure_changes_nothing dropdownProps None
              (dropdownWorld unreadable cachedMeta) corrupt Hres)
    as (_ & Hmeta & _).
  exact Hmeta.
Defined.

Lemma dropdown_refresh_unconfigured_keeps_state_witness :
  GitVCS.isInitialized (engine (dropdownWorld uninitialized staleMeta)) = false
  ∧ state (final (_refreshState dropdownProps None
                    {| engine := uninitialized; database := dbWith staleMeta;
                       state := staleState |}))
    = staleState.
Proof.
  split; [reflexivity|].
  assert (Hun : GitVCS.isInitialized uninitialized = false
                ∨ falsy (gitRepositoryId (getMeta "wrk_1" (dbWith staleMeta))) = true)
    by (left; reflexivity).
  exact (proj1 (dropdown_refresh_unconfigured_keeps_state dropdownProps None
                  {| engine := uninitialized; database := dbWith staleMeta;
                     state := staleState |} Hun)).
Defined.

Lemma dropdown_refresh_unconfigured_twice_witness :
  calls (_refreshState dropdownProps None (dropdownWorld uninitialized staleMeta))
  = [metaGetOrCreateByParentId "wrk_1"; metaUpdateByParentId "wrk_1" clearedMeta]
  ∧ calls (_refreshState dropdownProps None
             (final (_refreshState dropdownProps None
                       (dropdownWorld uninitialized staleMeta))))
    = [metaGetOrCreateByParentId "wrk_1"].
Proof.
  split; [reflexivity|].
  assert (Hun : GitVCS.isInitialized uninitialized = false
                ∨ falsy (gitRepositoryId (getMeta "wrk_1" (dbWith staleMeta))) = true)
    by (left; reflexivity).
  destruct (dropdown_refresh_unconfigured_twice dropdownProps None None
              (dropdownWorld uninitialized staleMeta) Hun) as (_ & Hcalls & _).
  exact Hcalls.
Defined.

Lemma dropdown_refresh_empty_log_witness :
  pushOffered true
    (state (final (_refreshState dropdownProps None
                     (dropdownWorld emptyRepository cachedMeta)))) = false
  ∧ cachedGitLastCommitTime
      (getMeta "wrk_1"
         (database (final (_refreshState dropdownProps None
                             (dropdownWorld emptyRepository cachedMeta))))) = None.
Proof.
  pose proof (dropdown_refresh_empty_log dropdownProps None
                (dropdownWorld emptyRepository cachedMeta)
                "main" ["main"] (Some []) emptyRepository emptyRepository
                emptyRepository) as Hrefresh.
  destruct Hrefresh as (_ & _ & _ & _ & Ht & _ & Hpush); try reflexivity.
  split; [exact Hpush | exact Ht].
Defined.

Lemma dropdown_refresh_then_menu_witness :
  render true
    (state (final (_refreshState dropdownProps None
                     (dropdownWorld healthy configuredMeta))))
  = [DividerGitSync; ItemRepositorySettings; ItemBranches; DividerBranches;
     ItemBranch "main" true; ItemBranch "feature" false;
     DividerCurrentBranch "main"; ItemCommit; ItemPush false; ItemPull false;
     ItemHistory 1 false].
Proof.
  exact (proj2 (proj2 (proj2
    (dropdown_refresh_then_menu dropdownProps None
       (dropdownWorld healthy configuredMeta)
       "main" ["main"; "feature"] (Some [headCommit]) healthy healthy healthy
       eq_refl eq_refl eq_refl eq_refl eq_refl)))).
Defined.

End DropdownRefreshExamples.

(** ** The dropdown's actions *)

Section DropdownActions.
Context {Credentials E : Type} `{!GitVCS.t Credentials E}.
Import GitSyncDropdown.

Local Ltac run_action :=
  unfold _handlePull, _handlePush, bind, try_catch, ret, throw, setState, uiCall,
    db_bufferChanges, db_flushChanges, dbCall,
    vcs_pull, vcs_push, vcs_canPush, engineCall;
  simpl.

(** Pull and push end with their spinner off and the rest of the component
    state untouched, whatever the engine answers, when a repository is
    configured; without one the action throws with its spinner left on. *)
Theorem dropdown_spinners
  (ws : Workspace) (repository : option GitRepository) (force : bool)
  (w : World E State) :
  let props := {| workspace := ws; gitRepository := repository |} in
  let spinning := match repository with Some _ => false | None => true end in
  state (final (_handlePull props w)) = set_loadingPull spinning (state w)
  ∧ state (final (_handlePush props force w)) = set_loadingPush spinning (state w).
Proof.
  destruct repository as [repo|]; run_action.
  - destruct (GitVCS.pull (credentials repo) (engine w)) as [[err|[]] e1]; simpl;
      (split; [reflexivity|]);
      destruct (GitVCS.canPush (credentials repo) (engine w)) as [[err'|[|]] e2];
      simpl; try reflexivity;
      destruct (GitVCS.push (credentials repo) force e2) as [[err''|[]] e3]; simpl;
      try reflexivity; destruct (isPushRejected err''); reflexivity.
  - split; reflexivity.
Qed.

(** Pull, push and the dropdown's checkout balance the buffers: the buffers
    open afterwards are those that were open before, whatever the engine
    answers; pull and push leave the workspace metadata alone. *)
Theorem dropdown_actions_balance_buffers
  (ws : Workspace) (repo : GitRepository) (force : bool) (b : string)
  (w : World E State) :
  buffersWellFormed (database w) →
  let props := {| workspace := ws; gitRepository := Some repo |} in
  let pulled := database (final (_handlePull props w)) in
  let pushed := database (final (_handlePush props force w)) in
  let checkedOut := database (final (_handleCheckoutBranch props b w)) in
  (openBuffers pulled = openBuffers (database w)
   ∧ workspaceMetas pulled = workspaceMetas (database w))
  ∧ (openBuffers pushed = openBuffers (database w)
     ∧ workspaceMetas pushed = workspaceMetas (database w))
  ∧ openBuffers checkedOut = openBuffers (database w).
Proof.
  intros Hwf props pulled pushed checkedOut.
  pose proof (close_after_open (database w) Hwf) as Hclose.
  split; [|split].
  - subst pulled props. run_action.
    destruct (GitVCS.pull (credentials repo) (engine w)) as [[err|[]] e1]; simpl;
      (split; [exact Hclose | reflexivity]).
  - subst pushed props. run_action.
    destruct (GitVCS.canPush (credentials repo) (engine w)) as [[err|[|]] e1]; simpl;
      try (split; reflexivity).
    destruct (GitVCS.push (credentials repo) force e1) as [[err|[]] e2]; simpl;
      [destruct (isPushRejected err); simpl|]; (split; [exact Hclose | reflexivity]).
  - subst checkedOut.
    destruct (dropdown_checkout_sequence props b w) as (_ & _ & -> & _).
    rewrite dropdown_refresh_keeps_buffers. exact Hclose.
Qed.

End DropdownActions.

Section DropdownActionsExamples.
Import GitSyncDropdown Scripted Scenarios.

Lemma dropdown_actions_balance_buffers_witness :
  buffersWellFormed (database (dropdownWorld checkoutFails configuredMeta))
  ∧ openBuffers
      (database (final (_handleCheckoutBranch dropdownProps "feature"
                          (dropdownWorld checkoutFails configuredMeta))))
    = [].
Proof.
  assert (Hwf : buffersWellFormed (database (dropdownWorld checkoutFails configuredMeta)))
    by constructor.
  split; [exact Hwf|].
  exact (proj2 (proj2
    (dropdown_actions_balance_buffers {| _id := "wrk_1" |} {| credentials := "token" |}
       false "feature" (dropdownWorld checkoutFails configuredMeta) Hwf))).
Defined.

End DropdownActionsExamples.

(** ** The branch manager's refresh and actions *)

Section ModalActions.
Context {Credentials E : Type} `{!GitVCS.t Credentials E}.
Import GitBranchesModal.

Local Ltac run_refresh :=
  unfold _refreshState, bind, setState, vcs_getBranch, vcs_listBranches,
    vcs_listRemoteBranches, engineCall;
  simpl.

Local Ltac refresh_cases w :=
  run_refresh;
  destruct (GitVCS.getBranch (engine w)) as [[err|br] e1] eqn:Hbr; simpl;
  [ | destruct (GitVCS.listBranches e1) as [[err|bs] e2] eqn:Hbs; simpl;
      [ | destruct (GitVCS.listRemoteBranches e2) as [[err|rbs] e3] eqn:Hrbs; simpl ] ].

Lemma modal_refresh_run (newState : option (State → State)) (w : World E State) :
  let o := _refreshState newState w in
  database (final o) = database w
  ∧ existsb isBufferCall (calls o) = false
  ∧ match res o with
    | inl _ => state (final o) = state w
    | inr _ =>
        ∃ br bs rbs,
          state (final o)
          = default (fun s => s) newState
              (set_branch_branches_remoteBranches br bs rbs (state w))
    end.
Proof.
  refresh_cases w; repeat split; try reflexivity. by exists br, bs, rbs.
Qed.

(** The refresh of the branch manager is all or nothing.  It asks the
    engine for the branch, the local branches and the remote branches, in
    that order.  If one of the three rejects, the refresh throws that error
    after that call, and the component state is as it was: no half-updated
    lists.  If all three answer, the state gets the branch as [branch], the
    local branches as [branches] and the remote branches as
    [remoteBranches], keeps its error notice and the text typed for a new
    branch, and [newState] is applied on top of that. *)
Theorem modal_refresh_all_or_nothing
  (newState : option (State → State)) (w : World E State) :
  let o := _refreshState newState w in
  match GitVCS.getBranch (engine w) with
  | (inl err, _) =>
      res o = inl err ∧ state (final o) = state w ∧ calls o = [vcsGetBranch]
  | (inr br, e1) =>
      match GitVCS.listBranches e1 with
      | (inl err, _) =>
          res o = inl err ∧ state (final o) = state w
          ∧ calls o = [vcsGetBranch; vcsListBranches]
      | (inr bs, e2) =>
          match GitVCS.listRemoteBranches e2 with
          | (inl err, _) =>
              res o = inl err ∧ state (final o) = state w
              ∧ calls o = [vcsGetBranch; vcsListBranches; vcsListRemoteBranches]
          | (inr rbs, _) =>
              res o = inr tt
              ∧ state (final o)
                = default (fun s => s) newState
                    {| error := error (state w);
                       branches := bs;
                       remoteBranches := rbs;
                       branch := br;
                       newBranchName := newBranchName (state w) |}
              ∧ calls o = [vcsGetBranch; vcsListBranches; vcsListRemoteBranches]
          end
      end
  end.
Proof. refresh_cases w; repeat split; reflexivity. Qed.

Local Ltac run_modal :=
  unfold _handleCreate, _handleDelete, _handleMerge, _handleCheckout,
    _errorHandler, show, getState, bind, try_catch, ret, setState, uiCall,
    vcs_checkout, vcs_merge, vcs_deleteBranch, vcs_fetch, engineCall;
  simpl.

Local Ltac with_refresh :=
  match goal with
  | |- context [_refreshState ?ns ?w1] =>
      let Hrun := fresh "Hrun" in
      pose proof (modal_refresh_run ns w1) as Hrun; simpl in Hrun;
      destruct Hrun as (Hdb & Hbuf & Hst);
      destruct (_refreshState ns w1) as [[err'|[]] cs wf]; simpl in *
  end.

(** Creating a branch is a bare [vcs.checkout] of the typed name: no buffer,
    no entity reinitialisation, no write to the database.  If the checkout
    rejects, the typed name is kept and the error shown; if it succeeds, the
    view is refreshed and the name field emptied, unless the refresh itself
    fails, which shows that error and keeps the name. *)
Theorem modal_create_branch (props : Props) (w : World E State) :
  let newName := newBranchName (state w) in
  let provider := GitVCS.getOauth2FormatName (credentials (gitRepository props)) in
  let checked := GitVCS.checkout newName (engine w) in
  let o := _handleCreate props w in
  res o = inr tt
  ∧ database (final o) = database w
  ∧ existsb isBufferCall (calls o) = false
  ∧ match checked.1 with
    | inl err =>
        calls o = [vcsCheckout newName]
        ∧ state (final o) = set_error (message err) (state w)
    | inr _ =>
        let refreshed :=
          _refreshState (Some (set_newBranchName ""))
            {| engine := checked.2; database := database w; state := state w |} in
        calls o =
          [vcsCheckout newName;
           trackSegmentEvent
             (withProviderName (vcsSegmentEventProperties "git" "create_branch" None)
                provider)]
          ++ calls refreshed
        ∧ match res refreshed with
          | inr _ =>
              newBranchName (state (final o)) = ""
              ∧ error (state (final o)) = error (state w)
          | inl err => state (final o) = set_error (message err) (state w)
          end
    end.
Proof.
  run_modal.
  destruct (GitVCS.checkout (newBranchName (state w)) (engine w)) as [[err|[]] e1];
    simpl; [repeat split; reflexivity|].
  with_refresh.
  - rewrite ?app_nil_r, Hst. repeat split; try reflexivity; assumption.
  - destruct Hst as (br & bs & rbs & ->). repeat split; try reflexivity; assumption.
Qed.

(** Deleting a branch opens no buffer and writes nothing to the database.
    If [vcs.deleteBranch] rejects, the branch lists shown stay as they were
    and the error is shown; if it succeeds the view is refreshed from the
    engine. *)
Theorem modal_delete_branch (props : Props) (b : string) (w : World E State) :
  let provider := GitVCS.getOauth2FormatName (credentials (gitRepository props)) in
  let deleted := GitVCS.deleteBranch b (engine w) in
  let o := _handleDelete props b w in
  res o = inr tt
  ∧ database (final o) = database w
  ∧ existsb isBufferCall (calls o) = false
  ∧ match deleted.1 with
    | inl err =>
        calls o = [vcsDeleteBranch b]
        ∧ state (final o) = set_error (message err) (state w)
    | inr _ =>
        let refreshed :=
          _refreshState None
            {| engine := deleted.2; database := database w; state := state w |} in
        calls o =
          [vcsDeleteBranch b;
           trackSegmentEvent
             (withProviderName (vcsSegmentEventProperties "git" "delete_branch" None)
                provider)]
          ++ calls refreshed
        ∧ match res refreshed with
          | inr _ => state (final o) = state (final refreshed)
          | inl err => state (final o) = set_error (message err) (state w)
          end
    end.
Proof.
  run_modal.
  destruct (GitVCS.deleteBranch b (engine w)) as [[err|[]] e1];
    simpl; [repeat split; reflexivity|].
  with_refresh.
  - rewrite ?app_nil_r, Hst. repeat split; try reflexivity; assumption.
  - repeat split; try reflexivity; assumption.
Qed.

(** A merge that the engine rejects stops there: no checkout follows, no
    buffer is opened, the database is untouched, and the error is shown. *)
Theorem modal_merge_failure_stops
  (props : Props) (b : string) (w : World E State) (thrown : JsError) (e1 : E) :
  GitVCS.merge b (engine w) = (inl thrown, e1) →
  let o := _handleMerge props b w in
  res o = inr tt
  ∧ calls o = [vcsMerge b]
  ∧ database (final o) = database w
  ∧ state (final o) = set_error (message thrown) (state w).
Proof.
  intros Hm. unfold _handleMerge, _errorHandler, try_catch, bind, vcs_merge,
    engineCall, setState; simpl.
  rewrite Hm; simpl. repeat split; reflexivity.
Qed.

(** Opening the branch manager is not guarded by the error handler.  If the
    first refresh fails, [show] throws before the modal is shown; if the
    fetch rejects, [show] throws after the modal is on screen, with the
    branches of the first refresh in the state; otherwise it ends as the
    second refresh ends. *)
Theorem modal_show_errors_escape (props : Props) (w : World E State) :
  let creds := credentials (gitRepository props) in
  let first := _refreshState (Some (set_newBranchName "")) w in
  let o := show props w in
  match res first with
  | inl err =>
      res o = inl err ∧ calls o = calls first ∧ state (final o) = state w
  | inr _ =>
      let fetched := GitVCS.fetch false 1 creds (engine (final first)) in
      match fetched.1 with
      | inl err =>
          res o = inl err
          ∧ calls o = calls first
                      ++ [modalShow; setTimeoutFocusInput 100; vcsFetch false 1 creds]
          ∧ state (final o) = state (final first)
      | inr _ =>
          let second :=
            _refreshState None
              {| engine := fetched.2; database := database (final first);
                 state := state (final first) |} in
          res o = res second ∧ state (final o) = state (final second)
      end
  end.
Proof.
  unfold show, bind, uiCall, vcs_fetch, engineCall; simpl.
  pose proof (modal_refresh_run (Some (set_newBranchName "")) w) as (_ & _ & Hst).
  destruct (_refreshState (Some (set_newBranchName "")) w) as [[err|[]] cs w1];
    simpl in *; [repeat split; try reflexivity; exact Hst|].
  destruct (GitVCS.fetch false 1 (credentials (gitRepository props)) (engine w1))
    as [[err|[]] e1]; simpl; [repeat split; reflexivity|].
  destruct (_refreshState None _) as [r cs2 w2]; simpl. split; reflexivity.
Qed.

(** What the user sees of a caught error: the notice shows the error's
    message, and shows nothing when the message is empty. *)
Theorem modal_caught_error_notice
  (cb : M Credentials E State unit) (w : World E State) (thrown : JsError) :
  res (cb w) = inl thrown →
  errorNotice (render (state (final (_errorHandler cb w))))
  = if String.eqb (message thrown) "" then None else Some (message thrown).
Proof.
  intros Hres. unfold _errorHandler, try_catch, setState.
  destruct (cb w) as [[err|[]] cs w1]; simpl in *; [|discriminate].
  injection Hres as ->. reflexivity.
Qed.

End ModalActions.

Section ModalActionsExamples.
Import GitBranchesModal Scripted Scenarios.

Lemma modal_merge_failure_stops_witness :
  calls (_handleMerge modalProps "feature" (modalWorld unreadable)) = [vcsMerge "feature"]
  ∧ error (state (final (_handleMerge modalProps "feature" (modalWorld unreadable))))
    = "Could not find HEAD".
Proof.
  pose proof (modal_merge_failure_stops modalProps "feature" (modalWorld unreadable)
                corrupt unreadable eq_refl) as (_ & Hcalls & _ & Hstate).
  split; [exact Hcalls | by rewrite Hstate].
Defined.

Lemma modal_caught_error_notice_witness :
  errorNotice
    (render (state (final (_errorHandler (vcs_deleteBranch "feature")
                             (modalWorld unreadable)))))
  = Some "Could not find HEAD".
Proof.
  exact (modal_caught_error_notice (vcs_deleteBranch "feature") (modalWorld unreadable)
           corrupt eq_refl).
Defined.

End ModalActionsExamples.

(** ** The branch manager's view *)

Section ModalRows.
Import GitBranchesModal.

(** The current branch gets no Merge, Delete or Checkout button, and every
    other local branch gets exactly these three, for itself. *)
Theorem modal_local_rows_actions (st : State) :
  (∀ btn, btn ∈ concat (map buttons (rowsOf (render st))) →
          buttonTarget btn = branch st → ∃ n, btn = ButtonRemoteCheckout n)
  ∧ (∀ n, n ∈ branches st → n ≠ branch st →
          {| rowName := n; isCurrent := false;
             buttons := [ButtonMerge n; ButtonDelete n; ButtonCheckout n] |}
          ∈ localTable (render st))
  ∧ (branch st ∈ branches st →
     {| rowName := branch st; isCurrent := true; buttons := [] |}
     ∈ localTable (render st)).
Proof.
  split; [|split].
  - intros btn Hin Htarget. unfold rowsOf, render in Hin; simpl in Hin.
    apply list_elem_of_In in Hin.
    rewrite map_app, concat_app in Hin. apply in_app_or in Hin as [Hin|Hin].
    + exfalso. apply in_concat in Hin as (bts & Hrow & Hbtn).
      apply in_map_iff in Hrow as (row & <- & Hrow).
      apply in_map_iff in Hrow as (n & <- & _).
      unfold localRow in Hbtn; simpl in Hbtn.
      destruct (String.eqb_spec n (branch st)) as [Heq|Hne]; simpl in Hbtn.
      * exact Hbtn.
      * destruct Hbtn as [<-|[<-|[<-|[]]]]; by apply Hne.
    + destruct (0 <? length (remoteOnlyBranches st))%nat; simpl in Hin;
        [|destruct Hin].
      apply in_concat in Hin as (bts & Hrow & Hbtn).
      apply in_map_iff in Hrow as (row & <- & Hrow).
      apply in_map_iff in Hrow as (n & <- & _).
      destruct Hbtn as [<-|[]]. by exists n.
  - intros n Hin Hne. unfold render, localTable; simpl.
    apply list_elem_of_In, in_map_iff. exists n.
    split; [|by apply list_elem_of_In].
    unfold localRow. by destruct (String.eqb_spec n (branch st)).
  - intros Hin. unfold render, localTable; simpl.
    apply list_elem_of_In, in_map_iff. exists (branch st).
    split; [|by apply list_elem_of_In].
    unfold localRow. by rewrite String.eqb_refl.
Qed.

(** The table of remote branches is left out exactly when every remote branch
    is also a local branch; when it is there it has a row. *)
Theorem modal_remote_table_presence (st : State) :
  (remoteTable (render st) = None ↔ ∀ b, b ∈ remoteBranches st → b ∈ branches st)
  ∧ remoteTable (render st) ≠ Some [].
Proof.
  unfold render; simpl.
  assert (Hempty : remoteOnlyBranches st = []
                   ↔ ∀ b, b ∈ remoteBranches st → b ∈ branches st).
  { unfold remoteOnlyBranches.
    induction (remoteBranches st) as [|r rs IH]; simpl.
    - split; [intros _ b Hb; inversion Hb | reflexivity].
    - destruct (includes (branches st) r) eqn:Hr; simpl.
      + rewrite IH. apply includes_spec in Hr. split.
        * intros Hall b Hb. apply elem_of_cons in Hb as [->|Hb]; [exact Hr | by apply Hall].
        * intros Hall b Hb. apply Hall. by apply list_elem_of_further.
      + split; [discriminate|]. intros Hall.
        assert (Hin : r ∈ branches st) by (apply Hall; apply list_elem_of_here).
        apply includes_spec in Hin. congruence. }
  destruct (remoteOnlyBranches st) as [|r rs] eqn:Hro; simpl.
  - split; [|discriminate]. split; [intros _; by apply Hempty | reflexivity].
  - split; [|discriminate]. split; [discriminate|].
    intros Hall. apply Hempty in Hall. discriminate.
Qed.

End ModalRows.

Section ModalRowsExamples.
Import GitBranchesModal Scripted.

Lemma modal_local_rows_actions_witness :
  ("feature" ∈ branches refreshedModalState)
  ∧ {| rowName := "feature"; isCurrent := false;
       buttons := [ButtonMerge "feature"; ButtonDelete "feature";
                   ButtonCheckout "feature"] |}
    ∈ localTable (render refreshedModalState).
Proof.
  assert (Hin : "feature" ∈ branches refreshedModalState)
    by (apply list_elem_of_further, list_elem_of_here).
  split; [exact Hin|].
  apply (proj1 (proj2 (modal_local_rows_actions refreshedModalState)) "feature" Hin).
  discriminate.
Defined.

Lemma modal_remote_table_presence_witness :
  remoteTable (render (set_branch_branches_remoteBranches "main" ["main"] ["main"]
                         initialState)) = None.
Proof.
  apply (proj1 (modal_remote_table_presence
                  (set_branch_branches_remoteBranches "main" ["main"] ["main"]
                     initialState))).
  intros b Hb. exact Hb.
Defined.

End ModalRowsExamples.

(** ** The code prompt *)

Section CodePrompt.
Import CodePromptModal.

Lemma orElse_nonempty (a b : string) : b ≠ "" → orElse a b ≠ "".
Proof.
  intros Hb. unfold orElse. destruct (String.eqb_spec a ""); [exact Hb | assumption].
Qed.

(** The editor mode after [show]: a non-empty string given as [mode] is
    taken; the empty string keeps the mode the modal had (plain text if it
    had none); anything that is not a string gives plain text, whatever the
    modal had.  The mode is never empty afterwards. *)
Theorem code_prompt_show_mode (options : Options) (c : Component) :
  let shown := mode (state (show options c).1) in
  shown ≠ ""
  ∧ match optMode options with
    | JsString s =>
        if String.eqb s ""
        then shown = (if String.eqb (mode (state c)) "" then "text/plain"
                      else mode (state c))
        else shown = s
    | _ => shown = "text/plain"
    end.
Proof.
  unfold show; simpl. split.
  - apply orElse_nonempty, orElse_nonempty. discriminate.
  - destruct (optMode options) as [| | | |s| |]; try reflexivity.
    unfold orElse. destruct (String.eqb s ""); reflexivity.
Qed.

(** Choosing an entry of the syntax dropdown: every key of [MODES] is
    offered with its own label, and after [_handleChangeMode] with an
    offered key the button carries that entry's label, the Markdown editor
    is in use exactly for the Markdown key, and the rest of the state is as
    it was. *)
Theorem code_prompt_mode_choice (c : Component) (key label : string) :
  (key, label) ∈ MODES →
  let chosen := state (_handleChangeMode key c).1 in
  modeDropdown (render chosen)
  = (if hideMode (state c) then None
     else Some {| buttonLabel := Some label;
                  items := map (fun kl => (fst kl, Some (snd kl))) MODES |})
  ∧ editor (render chosen)
    = (if String.eqb key "text/x-markdown" then MarkdownEditor key else CodeEditor key)
  ∧ mode chosen = key
  ∧ (title chosen, defaultValue chosen, submitName chosen, placeholder chosen,
     hint chosen, hideMode chosen, enableRender chosen, showCopyButton chosen)
    = (title (state c), defaultValue (state c), submitName (state c),
       placeholder (state c), hint (state c), hideMode (state c),
       enableRender (state c), showCopyButton (state c)).
Proof.
  intros Hin chosen. subst chosen. unfold _handleChangeMode, render; simpl.
  assert (Hget : MODES_get key = Some label).
  { unfold MODES in Hin.
    repeat (apply elem_of_cons in Hin as [Heq|Hin];
            [injection Heq as -> ->; reflexivity|]).
    inversion Hin. }
  rewrite Hget. repeat split; try reflexivity.
  destruct (hideMode (state c)); reflexivity.
Qed.

(** After [show], a change in the editor calls the [onChange] that was
    given, and throws if none was given; a change of mode calls
    [onModeChange] if one was given and otherwise calls nothing. *)
Theorem code_prompt_callbacks_after_show
  (options : Options) (c : Component) (value : JsValue) (newMode : string) :
  let shown := (show options c).1 in
  match optOnChange options with
  | Some h => _handleChange value shown = inr [Invoke h value]
  | None => ∃ err, _handleChange value shown = inl err
  end
  ∧ (_handleChangeMode newMode shown).2
    = match optOnModeChange options with
      | Some h => [Invoke h (JsString newMode)]
      | None => []
      end
  ∧ _handleChange value initialComponent = inr [Invoke Noop value].
Proof.
  unfold show, _handleChange, _handleChangeMode; simpl.
  destruct (optOnChange options); repeat split; try reflexivity. by eexists.
Qed.

End CodePrompt.

Section CodePromptExamples.
Import CodePromptModal.

Lemma code_prompt_mode_choice_witness :
  ("application/json", "JSON") ∈ MODES
  ∧ option_map buttonLabel
      (modeDropdown (render (state (_handleChangeMode "application/json"
                                      initialComponent).1)))
    = Some (Some "JSON").
Proof.
  assert (Hin : ("application/json", "JSON") ∈ MODES)
    by (apply list_elem_of_further, list_elem_of_here).
  split; [exact Hin|].
  destruct (code_prompt_mode_choice initialComponent "application/json" "JSON" Hin)
    as (Hdrop & _).
  by rewrite Hdrop.
Defined.

End CodePromptExamples.

(** ** The event log *)

Section EventLog.
Import EventLogView.

Local Ltac by_type e :=
  unfold getIcon, getMessage;
  destruct (String.eqb_spec (type e) "message") as [Hm|Hm];
  [ destruct (String.eqb_spec (direction e) "OUTGOING") as [Hd|Hd]
  | destruct (String.eqb_spec (type e) "open") as [Ho|Ho];
    [ | destruct (String.eqb_spec (type e) "close") as [Hc|Hc];
        [ | destruct (String.eqb_spec (type e) "error") as [He|He] ] ] ].

(** The icon tells the kind of event: "sent" is shown for outgoing messages
    only, "receive" for every other message (whatever its direction says),
    and "bug" exactly for the types the view does not know, which are also
    described as an unknown event. *)
Theorem event_icon_identifies_kind (e : WebSocketEvent) :
  (getIcon e = "sent" ↔ type e = "message" ∧ direction e = "OUTGOING")
  ∧ (getIcon e = "receive" ↔ type e = "message" ∧ direction e ≠ "OUTGOING")
  ∧ (getIcon e = "bug" ↔ type e ∉ ["message"; "open"; "close"; "error"])
  ∧ (getIcon e = "bug" → getMessage e = "Unknown event").
Proof.
  assert (Hknown : type e ∉ ["message"; "open"; "close"; "error"]
                   ↔ type e ≠ "message" ∧ type e ≠ "open"
                     ∧ type e ≠ "close" ∧ type e ≠ "error").
  { rewrite !not_elem_of_cons. pose proof (not_elem_of_nil (type e)). tauto. }
  rewrite Hknown.
  by_type e; repeat split; try discriminate; try tauto; try (intros [? ?]; congruence);
    try (intros (? & ? & ? & ?); congruence); try congruence.
Qed.

End EventLog.

Section EventLogExamples.
Import EventLogView.

Lemma event_icon_identifies_kind_witness :
  getMessage {| _id := "evt_1"; type := "ping"; direction := ""; data := "";
                message := "" |} = "Unknown event".
Proof.
  apply (proj2 (proj2 (proj2 (event_icon_identifies_kind
           {| _id := "evt_1"; type := "ping"; direction := ""; data := "";
              message := "" |})))).
  reflexivity.
Defined.

End EventLogExamples.
